(** * Cursor_Voice_Talker: the agent's tools, its conversation graph and the voice loop

    A shallow embedding of [app/graph.py] and [app/main.py].

    Python strings are modelled as [string], one [ascii] per character (code
    points up to U+00FF).  [os.path] is [posixpath].  The interpreter's [os],
    [shutil] and [open] are reached through the interface [OS]; a concrete
    instance over a tree of absolute paths (no symbolic links, no permission
    bits) is used to run the tools on explicit file systems. *)

From Stdlib Require Import String Ascii List Bool Arith ZArith Lia.
From stdpp Require Import base option gmap strings list.

Local Open Scope Z_scope.
Local Open Scope nat_scope.
Local Open Scope stdpp_scope.

(** ** Python string primitives *)

Module Py.

(** [str.isspace] on one character, for code points below 256. *)
Definition isspace (c : ascii) : bool :=
  let n := nat_of_ascii c in
  ((9 <=? n) && (n <=? 13)) || ((28 <=? n) && (n <=? 32))
  || (n =? 133) || (n =? 160).

Fixpoint lstrip (s : string) : string :=
  match s with
  | String c s' => if isspace c then lstrip s' else s
  | EmptyString => EmptyString
  end.

Definition rstrip (s : string) : string :=
  String.rev (lstrip (String.rev s)).

(** [s.strip()] *)
Definition strip (s : string) : string := rstrip (lstrip s).

(** [s.rfind(c)] scans left to right and remembers the last hit; [-1]
    when there is none. *)
Fixpoint rfind_go (c : ascii) (s : string) (i last : Z) : Z :=
  match s with
  | EmptyString => last
  | String a s' =>
      rfind_go c s' (i + 1)%Z (if Ascii.eqb a c then i else last)
  end.

Definition rfind (s : string) (c : ascii) : Z := rfind_go c s 0%Z (-1)%Z.

Fixpoint drop (n : nat) (s : string) : string :=
  match n, s with
  | O, _ => s
  | S n', String _ s' => drop n' s'
  | S _, EmptyString => EmptyString
  end.

(** [s[i:]] for a non-negative [i]. *)
Definition slice_from (i : Z) (s : string) : string := drop (Z.to_nat i) s.

(** [s[:n]] *)
Fixpoint slice_to (n : nat) (s : string) : string :=
  match n, s with
  | S n', String c s' => String c (slice_to n' s')
  | _, _ => EmptyString
  end.

Definition startswith (s : string) (c : ascii) : bool :=
  match s with
  | String a _ => Ascii.eqb a c
  | EmptyString => false
  end.

Fixpoint endswith (s : string) (c : ascii) : bool :=
  match s with
  | EmptyString => false
  | String a EmptyString => Ascii.eqb a c
  | String _ s' => endswith s' c
  end.

(** Truth value of a [str]. *)
Definition truthy (s : string) : bool :=
  match s with EmptyString => false | _ => true end.

(** [s.split(c)] *)
Fixpoint split_go (c : ascii) (s cur : string) : list string :=
  match s with
  | EmptyString => [String.rev cur]
  | String a s' =>
      if Ascii.eqb a c then String.rev cur :: split_go c s' EmptyString
      else split_go c s' (String a cur)
  end.

Definition split (s : string) (c : ascii) : list string :=
  split_go c s EmptyString.

Fixpoint contains (c : ascii) (s : string) : bool :=
  match s with
  | EmptyString => false
  | String a s' => Ascii.eqb a c || contains c s'
  end.

End Py.

(** ** [posixpath] *)

Module PosixPath.

Definition sep : ascii := "/"%char.

(** [i = p.rfind(sep) + 1; return p[i:]] *)
Definition basename (p : string) : string :=
  let i := (Py.rfind p sep + 1)%Z in
  Py.slice_from i p.

(** One round of the loop of [posixpath.join(a, *p)]. *)
Definition join_step (path b : string) : string :=
  if Py.startswith b sep then b
  else if negb (Py.truthy path) || Py.endswith path sep then path +:+ b
  else path +:+ "/" +:+ b.

Definition join (a b : string) : string := join_step a b.

End PosixPath.

(** ** The operating-system interface of the tools *)

(** The two HTTP server classes of [http.server]. *)
Inductive server_class := HTTPServer | ThreadingHTTPServer.

Inductive handler_class := SimpleHTTPRequestHandler.

(** [Server((host, port), handler)] *)
Record server := {
  srv_class : server_class;
  srv_host : string;
  srv_port : N;
  srv_handler : handler_class
}.

(** [threading.Thread(target=serve, daemon=...)], where [serve] enters
    [serve_forever] on the given server. *)
Record thread := { target : server; daemon : bool }.

(** What the tools ask of the interpreter.  An operation that raises may
    still have changed the world before it did. *)
Class OS (world exn : Type) := {
  (** [os.makedirs(path, exist_ok=True)] *)
  os_makedirs : string → world → option exn * world;
  (** [with open(path, "w", encoding="utf-8") as f: f.write(content)] *)
  open_write : string → string → world → option exn * world;
  (** [shutil.rmtree(path)] *)
  shutil_rmtree : string → world → option exn * world;
  (** [os.remove(path)] *)
  os_remove : string → world → option exn * world;
  (** [os.chdir(path)] *)
  os_chdir : string → world → option exn * world;
  (** [os.path.exists(path)]: reads the world, never raises *)
  os_path_exists : string → world → bool;
  (** [thread.start()]: raises when no thread can be created *)
  thread_start : thread → world → option exn * world;
  (** [str(e)] *)
  str_exn : exn → string
}.

(** What a call does: it returns a value or lets an exception escape. *)
Inductive outcome (exn A : Type) :=
| Returned (a : A)
| Raised (e : exn).
Arguments Returned {exn A} a.
Arguments Raised {exn A} e.

(** ** The tools of [graph.py] *)

Module Tools.
Section Tools.
Context {world exn : Type} `{!OS world exn}.

(** Statements that read and change the world and may raise. *)
Definition M (A : Type) : Type := world → outcome exn A * world.

#[export] Instance M_ret : MRet M := λ A a w, (Returned a, w).

#[export] Instance M_bind : MBind M := λ A B f m w,
  match m w with
  | (Returned a, w') => f a w'
  | (Raised e, w') => (Raised e, w')
  end.

Definition call (op : world → option exn * world) : M unit := λ w,
  match op w with
  | (None, w') => (Returned (), w')
  | (Some e, w') => (Raised e, w')
  end.

Definition read {A} (f : world → A) : M A := λ w, (Returned (f w), w).

Definition update (f : world → world) : M unit := λ w, (Returned (), f w).

(** [try: body  except Exception as e: handler e]; [exn] stands for the
    subclasses of [Exception]. *)
Definition try_except {A} (body : M A) (handler : exn → M A) : M A := λ w,
  match body w with
  | (Returned a, w') => (Returned a, w')
  | (Raised e, w') => handler e w'
  end.

Definition CHAT_GPT_DIR : string := "chat_gpt".

Definition create_folder (folder_name : string) : M string :=
  call (os_makedirs CHAT_GPT_DIR) ;;
  let safe_name := PosixPath.basename (Py.strip folder_name) in
  let path := PosixPath.join CHAT_GPT_DIR safe_name in
  try_except
    (call (os_makedirs path) ;;
     mret ("Folder created at " +:+ path))
    (λ e, mret ("Failed to create folder: " +:+ str_exn e)).

(** [base_dir] of [create_code_file] and [delete_file]; [if folder_name:]
    is false for [None] and for the empty string. *)
Definition base_dir_of (folder_name : option string) : string :=
  match folder_name with
  | Some f =>
      if Py.truthy f
      then PosixPath.join CHAT_GPT_DIR (PosixPath.basename (Py.strip f))
      else CHAT_GPT_DIR
  | None => CHAT_GPT_DIR
  end.

Definition create_code_file (filename content : string)
    (folder_name : option string) : M string :=
  let base_dir := base_dir_of folder_name in
  call (os_makedirs base_dir) ;;
  let safe_name := PosixPath.basename filename in
  let path := PosixPath.join base_dir safe_name in
  try_except
    (call (open_write path content) ;;
     mret ("File created/updated at " +:+ path))
    (λ e, mret ("Failed to create/update file: " +:+ str_exn e)).

Definition delete_folder (folder_name : string) : M string :=
  let base :=
    PosixPath.join CHAT_GPT_DIR (PosixPath.basename (Py.strip folder_name)) in
  present ← read (os_path_exists base);
  if negb present then mret ("Folder " +:+ base +:+ " does not exist.")
  else
    try_except
      (call (shutil_rmtree base) ;;
       mret ("Folder " +:+ base +:+ " has been deleted."))
      (λ e, mret ("Failed to delete folder: " +:+ str_exn e)).

Definition delete_file (filename : string) (folder_name : option string)
    : M string :=
  let base_dir := base_dir_of folder_name in
  let path := PosixPath.join base_dir (PosixPath.basename filename) in
  present ← read (os_path_exists path);
  if negb present then mret ("File " +:+ path +:+ " does not exist.")
  else
    try_except
      (call (os_remove path) ;;
       mret ("File " +:+ path +:+ " has been deleted."))
      (λ e, mret ("Failed to delete file: " +:+ str_exn e)).

(** The server that [serve] of [run_project] builds. *)
Definition project_server : server :=
  {| srv_class := ThreadingHTTPServer;
     srv_host := "localhost";
     srv_port := 8000%N;
     srv_handler := SimpleHTTPRequestHandler |}.

Definition run_project : M string :=
  failed ← try_except
    (call (os_makedirs CHAT_GPT_DIR) ;;
     call (os_chdir CHAT_GPT_DIR) ;;
     mret None)
    (λ e, mret (Some ("Failed to prepare project directory: " +:+ str_exn e)));
  match failed with
  | Some message => mret message
  | None =>
      let thread := {| target := project_server; daemon := true |} in
      call (thread_start thread) ;;
      mret "Project server started at http://localhost:8000"
  end.

End Tools.

(** The path that [create_folder] and [delete_folder] act on. *)
Definition folder_target (folder_name : string) : string :=
  PosixPath.join CHAT_GPT_DIR (PosixPath.basename (Py.strip folder_name)).

(** The path that [create_code_file] and [delete_file] act on. *)
Definition file_target (filename : string) (folder_name : option string)
    : string :=
  PosixPath.join (base_dir_of folder_name) (PosixPath.basename filename).

Definition started : string :=
  "Project server started at http://localhost:8000".

End Tools.

(** ** A file system to run the tools on

    Absolute paths are lists of names from the root; the root is always a
    directory.  There are no symbolic links and no permission bits, so the
    only failures are those of the shape of the tree. *)

Module FS.

Inductive node := Dir | File (content : string).

Inductive errno := EEXIST | ENOENT | ENOTDIR | EISDIR | EINVAL | ENOTEMPTY.

(** An [OSError]; its Python class follows from [err_no]
    ([FileExistsError] for [EEXIST], [FileNotFoundError] for [ENOENT],
    [NotADirectoryError] for [ENOTDIR], [IsADirectoryError] for [EISDIR]). *)
Record os_error := { err_no : errno; err_filename : string }.

Definition strerror (e : errno) : string :=
  match e with
  | EEXIST => "[Errno 17] File exists"
  | ENOENT => "[Errno 2] No such file or directory"
  | ENOTDIR => "[Errno 20] Not a directory"
  | EISDIR => "[Errno 21] Is a directory"
  | EINVAL => "[Errno 22] Invalid argument"
  | ENOTEMPTY => "[Errno 39] Directory not empty"
  end.

Definition str_os_error (e : os_error) : string :=
  strerror (err_no e) +:+ ": '" +:+ err_filename e +:+ "'".

Record world := {
  cwd : list string;
  tree : gmap (list string) node;
  threads : list thread
}.

Definition lookup_node (t : gmap (list string) node) (p : list string)
    : option node :=
  match p with
  | [] => Some Dir
  | _ => t !! p
  end.

(** Follow one component of a path from the directory [cur]. *)
Definition enter (cur : list string) (c : string) : list string :=
  if bool_decide (c = "") || bool_decide (c = ".") then cur
  else if bool_decide (c = "..") then removelast cur
  else cur ++ [c].

(** Path resolution: every component is looked up in an existing
    directory; the last one need not exist. *)
Fixpoint walk (t : gmap (list string) node) (cur comps : list string)
    : errno + list string :=
  match comps with
  | [] => inr cur
  | c :: rest =>
      match lookup_node t cur with
      | Some Dir => walk t (enter cur c) rest
      | Some (File _) => inl ENOTDIR
      | None => inl ENOENT
      end
  end.

Definition origin (w : world) (path : string) : list string :=
  if Py.startswith path PosixPath.sep then [] else cwd w.

Definition resolve_in (t : gmap (list string) node) (w : world)
    (path : string) : errno + list string :=
  if Py.truthy path then walk t (origin w path) (Py.split path PosixPath.sep)
  else inl ENOENT.

Definition resolve (w : world) (path : string) : errno + list string :=
  resolve_in (tree w) w path.

Definition with_tree (w : world) (t : gmap (list string) node) : world :=
  {| cwd := cwd w; tree := t; threads := threads w |}.

Definition fail (e : errno) (path : string) (w : world)
    : option os_error * world :=
  (Some {| err_no := e; err_filename := path |}, w).

(** [os.makedirs(path, exist_ok=True)]: missing directories are made on
    the way; a regular file in the way is an error.  Directories made
    before the error stay. *)
Fixpoint makedirs_walk (t : gmap (list string) node) (cur comps : list string)
    : option errno * gmap (list string) node :=
  match comps with
  | [] => (None, t)
  | c :: rest =>
      match lookup_node t cur with
      | Some Dir =>
          let nxt := enter cur c in
          match lookup_node t nxt with
          | None => makedirs_walk (<[nxt := Dir]> t) nxt rest
          | Some Dir => makedirs_walk t nxt rest
          | Some (File _) =>
              if forallb (λ r, bool_decide (r = "")) rest
              then (Some EEXIST, t) else (Some ENOTDIR, t)
          end
      | Some (File _) => (Some ENOTDIR, t)
      | None => (Some ENOENT, t)
      end
  end.

Definition makedirs (path : string) (w : world) : option os_error * world :=
  if Py.truthy path then
    match makedirs_walk (tree w) (origin w path) (Py.split path PosixPath.sep) with
    | (None, t) => (None, with_tree w t)
    | (Some e, t) => fail e path (with_tree w t)
    end
  else fail ENOENT path w.

Definition write_file (path content : string) (w : world)
    : option os_error * world :=
  match resolve w path with
  | inl e => fail e path w
  | inr p =>
      match lookup_node (tree w) p with
      | Some Dir => fail EISDIR path w
      | _ => (None, with_tree w (<[p := File content]> (tree w)))
      end
  end.

(** The tree without the entries strictly below [p]. *)
Definition without_below (p : list string) (t : gmap (list string) node)
    : gmap (list string) node :=
  filter (λ kv, ¬ (p `prefix_of` kv.1 ∧ kv.1 ≠ p)) t.

(** [shutil.rmtree(path)]: the entries below the directory go first, then
    [os.rmdir(path)], which the system refuses for a path that ends in
    [.] or [..]. *)
Definition rmtree (path : string) (w : world) : option os_error * world :=
  match resolve w path with
  | inl e => fail e path w
  | inr p =>
      match lookup_node (tree w) p with
      | None => fail ENOENT path w
      | Some (File _) => fail ENOTDIR path w
      | Some Dir =>
          let emptied := without_below p (tree w) in
          let final := List.last (Py.split path PosixPath.sep) "" in
          if bool_decide (final = ".") then fail EINVAL path (with_tree w emptied)
          else if bool_decide (final = "..") then
            match resolve_in emptied w path with
            | inl e => fail e path (with_tree w emptied)
            | inr _ => fail ENOTEMPTY path (with_tree w emptied)
            end
          else (None, with_tree w (delete p emptied))
      end
  end.

Definition remove (path : string) (w : world) : option os_error * world :=
  match resolve w path with
  | inl e => fail e path w
  | inr p =>
      match lookup_node (tree w) p with
      | None => fail ENOENT path w
      | Some Dir => fail EISDIR path w
      | Some (File _) => (None, with_tree w (delete p (tree w)))
      end
  end.

Definition chdir (path : string) (w : world) : option os_error * world :=
  match resolve w path with
  | inl e => fail e path w
  | inr p =>
      match lookup_node (tree w) p with
      | None => fail ENOENT path w
      | Some (File _) => fail ENOTDIR path w
      | Some Dir => (None, {| cwd := p; tree := tree w; threads := threads w |})
      end
  end.

Definition exists_ (path : string) (w : world) : bool :=
  match resolve w path with
  | inl _ => false
  | inr p => bool_decide (is_Some (lookup_node (tree w) p))
  end.

(** [thread.start()]; the tree model has no bound on the threads, so
    here it never fails. *)
Definition start (th : thread) (w : world) : option os_error * world :=
  (None, {| cwd := cwd w; tree := tree w; threads := threads w ++ [th] |}).

#[global] Instance os : OS world os_error := {|
  os_makedirs := makedirs;
  open_write := write_file;
  shutil_rmtree := rmtree;
  os_remove := remove;
  os_chdir := chdir;
  os_path_exists := exists_;
  thread_start := start;
  str_exn := str_os_error
|}.

(** The absolute path of the project directory seen from [w]. *)
Definition project_dir (w : world) : list string := cwd w ++ ["chat_gpt"].

(** [p] is the project directory or lies below it. *)
Definition inside_project (w : world) (p : list string) : Prop :=
  project_dir w `prefix_of` p.

(** A working directory [/work] that holds an empty [chat_gpt/]. *)
Definition fresh : world :=
  {| cwd := ["work"];
     tree := <[["work"; "chat_gpt"] := Dir]> (<[["work"] := Dir]> ∅);
     threads := [] |}.

(** A working directory [/work] in which [chat_gpt] is a regular file. *)
Definition blocked : world :=
  {| cwd := ["work"];
     tree := <[["work"; "chat_gpt"] := File "notes"]> (<[["work"] := Dir]> ∅);
     threads := [] |}.

(** The world after a tool call. *)
Definition after (tool : world → outcome os_error string * world) (w : world)
    : world :=
  (tool w).2.

(** The fresh working directory after three tool calls: [run_project],
    [create_code_file("chat_gpt", "x")], [run_project].  The process is then
    in [/work/chat_gpt/chat_gpt], where [chat_gpt] is the regular file that
    the second call wrote. *)
Definition self_blocked : world :=
  after Tools.run_project
    (after (Tools.create_code_file "chat_gpt" "x" None)
       (after Tools.run_project fresh)).

(** The fresh working directory with a file of the user's next to
    [chat_gpt/]. *)
Definition with_notes : world :=
  with_tree fresh (<[["work"; "notes.txt"] := File "keep"]> (tree fresh)).

End FS.

(** ** An operating system that has run out of threads

    Every file operation succeeds and changes nothing; [thread.start()]
    raises [RuntimeError("can't start new thread")]. *)

Module Starved.

Definition os : OS unit string :=
  {| os_makedirs := λ _ w, (None, w);
     open_write := λ _ _ w, (None, w);
     shutil_rmtree := λ _ w, (None, w);
     os_remove := λ _ w, (None, w);
     os_chdir := λ _ w, (None, w);
     os_path_exists := λ _ _, true;
     thread_start := λ _ w, (Some "can't start new thread", w);
     str_exn := λ e, e |}.

End Starved.

(** ** Request dispatch of the standard library's servers

    [socketserver.BaseServer.process_request] runs the handler in the thread
    that is inside [serve_forever]; [ThreadingHTTPServer] mixes in
    [ThreadingMixIn], whose [process_request] starts a thread for every
    request. *)

Module SocketServer.

Inductive runs_in := ServingThread | NewThread (request : nat).

Definition process_request (cls : server_class) (request : nat) : runs_in :=
  match cls with
  | HTTPServer => ServingThread
  | ThreadingHTTPServer => NewThread request
  end.

Definition single_threaded (cls : server_class) : Prop :=
  ∀ request, process_request cls request = ServingThread.

(** [SimpleHTTPRequestHandler] without a [directory] argument serves the
    working directory of the process. *)
Definition served_directory (w : FS.world) : list string := FS.cwd w.

End SocketServer.

(** ** Messages and the conversation graph *)

Module Graph.

(** The [content] of a message is a string or a list of content blocks;
    a block is kept as its [repr]. *)
Inductive content := Text (s : string) | Blocks (reprs : list string).

Definition content_truthy (c : content) : bool :=
  match c with
  | Text s => Py.truthy s
  | Blocks [] => false
  | Blocks (_ :: _) => true
  end.

Fixpoint commas (l : list string) : string :=
  match l with
  | [] => ""
  | [x] => x
  | x :: l' => x +:+ ", " +:+ commas l'
  end.

(** [str(c)] *)
Definition content_str (c : content) : string :=
  match c with
  | Text s => s
  | Blocks l => "[" +:+ commas l +:+ "]"
  end.

(** [c or ""] *)
Definition or_empty (c : content) : content :=
  if content_truthy c then c else Text "".

Record tool_call := {
  call_name : string;
  call_args : list (string * string);
  call_id : string
}.

Record message := {
  msg_type : string;
  msg_role : option string;
  msg_content : content;
  msg_tool_calls : list tool_call
}.

Record State := {
  messages : list message;
  rewritten_prompt : option content;
  plan : option content
}.

Definition START : string := "__start__".
Definition END : string := "__end__".

(** [getattr(m, "type", None) == "human" or getattr(m, "role", None) == "user"] *)
Definition is_user (m : message) : bool :=
  bool_decide (msg_type m = "human") || bool_decide (msg_role m = Some "user").

(** [for m in reversed(state["messages"]): if ...: ...; break] *)
Definition last_user (st : State) : option message :=
  find is_user (rev (messages st)).

(** [state.get(key) or default] *)
Definition get_or (field : option content) (default : content) : content :=
  match field with
  | Some c => if content_truthy c then c else default
  | None => default
  end.

Section Nodes.
(** The two models and the tool runner are outside the repository; the
    three prompt templates are kept abstract, no property below depends
    on their text. *)
Variable helper_llm : string → message.
Variable llm_with_tool : list message → message.
Variable run_tool : tool_call → message.
Variable rewrite_template : string → string.
Variable plan_template : string → string → string.
Variable system_template : string → string → string → string.

(** The node returns [{**state, "rewritten_prompt": ...}]; the messages in
    it are those of the state, which the reducer merges by id, so the list
    stays as it is. *)
Definition rewrite_node (st : State) : State :=
  match last_user st with
  | None => st
  | Some user_msg =>
      let content := or_empty (msg_content user_msg) in
      let prompt := rewrite_template (content_str content) in
      let rewritten := helper_llm prompt in
      let rewritten_text := or_empty (msg_content rewritten) in
      {| messages := messages st;
         rewritten_prompt := Some rewritten_text;
         plan := plan st |}
  end.

Definition user_text_of (st : State) : content :=
  match last_user st with
  | Some m => or_empty (msg_content m)
  | None => Text ""
  end.

Definition plan_node (st : State) : State :=
  let user_text := user_text_of st in
  let rewritten := get_or (rewritten_prompt st) user_text in
  let prompt :=
    plan_template (content_str user_text) (content_str rewritten) in
  let plan_msg := helper_llm prompt in
  let plan_text := or_empty (msg_content plan_msg) in
  {| messages := messages st;
     rewritten_prompt := rewritten_prompt st;
     plan := Some plan_text |}.

(** The node returns [{"messages": [message]}], which the reducer
    [add_messages] appends to the state's list. *)
Definition chatbot (st : State) : State :=
  let original_user_text := user_text_of st in
  let rewritten := get_or (rewritten_prompt st) original_user_text in
  let plan_text := get_or (plan st) (Text "") in
  let system_prompt :=
    {| msg_type := "system"; msg_role := None;
       msg_content :=
         Text (system_template (content_str original_user_text)
                 (content_str rewritten) (content_str plan_text));
       msg_tool_calls := [] |} in
  let message := llm_with_tool (system_prompt :: messages st) in
  {| messages := messages st ++ [message];
     rewritten_prompt := rewritten_prompt st;
     plan := plan st |}.

(** [ToolNode]: one tool message for each call of the last message. *)
Definition tool_node (st : State) : State :=
  let calls :=
    match List.last (Some <$> messages st) None with
    | Some m => msg_tool_calls m
    | None => []
    end in
  {| messages := messages st ++ (run_tool <$> calls);
     rewritten_prompt := rewritten_prompt st;
     plan := plan st |}.

(** [langgraph.prebuilt.tools_condition]: [None] stands for the
    [ValueError] it raises on a state without messages. *)
Definition tools_condition (st : State) : option string :=
  match List.last (Some <$> messages st) None with
  | Some ai_message =>
      match msg_tool_calls ai_message with
      | _ :: _ => Some "tools"
      | [] => Some END
      end
  | None => None
  end.

(** *** The builder *)

Inductive runnable := RewriteNode | PlanNode | Chatbot | ToolNode.

Inductive path_function := ToolsCondition.

(** As in [langgraph]: a dictionary of nodes, a set of edges, and the
    conditional edges by source node. *)
Record StateGraph := {
  nodes : gmap string runnable;
  edges : gset (string * string);
  branches : list (string * path_function)
}.

Definition empty_graph : StateGraph :=
  {| nodes := ∅; edges := ∅; branches := [] |}.

Definition add_node (name : string) (r : runnable) (g : StateGraph)
    : StateGraph :=
  {| nodes := <[name := r]> (nodes g);
     edges := edges g; branches := branches g |}.

Definition add_edge (a b : string) (g : StateGraph) : StateGraph :=
  {| nodes := nodes g; edges := {[ (a, b) ]} ∪ edges g;
     branches := branches g |}.

Definition add_conditional_edges (source : string) (path : path_function)
    (g : StateGraph) : StateGraph :=
  {| nodes := nodes g; edges := edges g;
     branches := branches g ++ [(source, path)] |}.

Definition graph_builder : StateGraph :=
  add_edge "chatbot" END
    (add_edge "tools" "chatbot"
      (add_conditional_edges "chatbot" ToolsCondition
        (add_edge "plan" "chatbot"
          (add_edge "rewrite" "plan"
            (add_edge START "rewrite"
              (add_node "tools" ToolNode
                (add_node "chatbot" Chatbot
                  (add_node "plan" PlanNode
                    (add_node "rewrite" RewriteNode empty_graph))))))))).

(** *** Running a compiled graph *)

Definition run_node (r : runnable) (st : State) : State :=
  match r with
  | RewriteNode => rewrite_node st
  | PlanNode => plan_node st
  | Chatbot => chatbot st
  | ToolNode => tool_node st
  end.

Definition eval_path (p : path_function) (st : State) : option string :=
  match p with
  | ToolsCondition => tools_condition st
  end.

Definition static_targets (g : StateGraph) (n : string) : list string :=
  snd <$> elements (filter (λ e, e.1 = n) (edges g)).

Definition branch_targets (g : StateGraph) (n : string) (st : State)
    : option (list string) :=
  mapM (λ b, eval_path b.2 st) (filter (λ b, b.1 = n) (branches g)).

(** The nodes triggered once [n] has run and left the state [st]; an
    edge to [END] triggers nothing. *)
Definition triggered (g : StateGraph) (n : string) (st : State)
    : option (list string) :=
  bs ← branch_targets g n st;
  Some (remove_dups (filter (λ t, t ≠ END) (static_targets g n ++ bs))).

(** How a run stops.  [OutOfSteps] is the framework's
    [GraphRecursionError]. *)
Inductive status :=
| Finished
| OutOfSteps
| Forked
| Failed.

(** One node runs at a time; a step that triggers several nodes at once
    stops the model with [Forked], a path function that raises or a name
    without a node with [Failed].  [fuel] is the framework's recursion
    limit: at most that many nodes run, and the framework checks the limit
    before it looks for the nodes to run next, so a run ends as [Finished]
    only while steps are left; a run whose last node uses the last step
    stops with [OutOfSteps].  The result is the list of nodes in the order
    in which they ran, the last state, and how the run stopped. *)
Fixpoint run (g : StateGraph) (fuel : nat) (n : string) (st : State)
    : list string * State * status :=
  match fuel with
  | O => ([], st, OutOfSteps)
  | S fuel' =>
      match nodes g !! n with
      | None => ([], st, Failed)
      | Some r =>
          let st' := run_node r st in
          match triggered g n st' with
          | None => ([n], st', Failed)
          | Some next =>
              match fuel' with
              | O => ([n], st', OutOfSteps)
              | S _ =>
                  match next with
                  | [] => ([n], st', Finished)
                  | [m] =>
                      let '(ran, st'', s) := run g fuel' m st' in
                      (n :: ran, st'', s)
                  | _ => ([n], st', Forked)
                  end
              end
          end
      end
  end.

(** [graph.invoke(input)]: the run starts at the node that [START]
    points to. *)
Definition invoke (g : StateGraph) (fuel : nat) (input : State)
    : list string * State * status :=
  match static_targets g START with
  | [n] => run g fuel n input
  | [] => ([], input, Finished)
  | _ => ([], input, Forked)
  end.

(** The state in which the chatbot node runs for the [i]-th time
    (counting from 0) when every earlier answer asked for a tool. *)
Fixpoint chat_state (input : State) (i : nat) : State :=
  match i with
  | O => plan_node (rewrite_node input)
  | S j => tool_node (chatbot (chat_state input j))
  end.

(** The tool calls of the message that the chatbot node adds to [st]. *)
Definition reply_calls (st : State) : list tool_call :=
  from_option msg_tool_calls [] (last (messages (chatbot st))).

(** [ [chatbot; tools] ] repeated [k] times. *)
Fixpoint tool_rounds (k : nat) : list string :=
  match k with
  | O => []
  | S j => "chatbot" :: "tools" :: tool_rounds j
  end.

(** The order of a run in which the chatbot asks for tools [k] times. *)
Definition schedule (k : nat) : list string :=
  "rewrite" :: "plan" :: tool_rounds k ++ ["chatbot"].

(** How a run can stand under the limit [fuel]: ended, with steps left,
    on an answer without a tool call after [k] answers that each carried
    one, or stopped by the limit somewhere along such an order, after
    exactly [fuel] nodes. *)
Definition follows_order (input : State) (fuel k : nat)
    (result : list string * State * status) (before : list string) : Prop :=
  (result.2 = Finished
   ∧ before ++ result.1.1 = schedule k
   ∧ result.1.2 = chatbot (chat_state input k)
   ∧ reply_calls (chat_state input k) = []
   ∧ (∀ i, i < k → reply_calls (chat_state input i) ≠ [])
   ∧ length result.1.1 < fuel)
  ∨ (result.2 = OutOfSteps
     ∧ (before ++ result.1.1) `prefix_of` schedule k
     ∧ (∀ i, 2 * i + 4 ≤ length (before ++ result.1.1) →
             reply_calls (chat_state input i) ≠ [])
     ∧ length result.1.1 = fuel).

End Nodes.

(** The unconditional edges as the specification lists them. *)
Definition listed_edges : gset (string * string) :=
  {[ (START, "rewrite"); ("rewrite", "plan"); ("plan", "chatbot");
     ("tools", "chatbot") ]}.

(** A model that asks for one tool and then answers, to run the graph on. *)
Definition demo_call : tool_call :=
  {| call_name := "create_folder"; call_args := [("folder_name", "site")];
     call_id := "call_1" |}.

Definition demo_llm (input : list message) : message :=
  if bool_decide (length input ≤ 2)
  then {| msg_type := "ai"; msg_role := None; msg_content := Text "";
          msg_tool_calls := [demo_call] |}
  else {| msg_type := "ai"; msg_role := None; msg_content := Text "Done.";
          msg_tool_calls := [] |}.

Definition demo_helper (prompt : string) : message :=
  {| msg_type := "ai"; msg_role := None; msg_content := Text prompt;
     msg_tool_calls := [] |}.

Definition demo_tool (c : tool_call) : message :=
  {| msg_type := "tool"; msg_role := None;
     msg_content := Text "Folder created at chat_gpt/site";
     msg_tool_calls := [] |}.

Definition demo_input : State :=
  {| messages := [ {| msg_type := "human"; msg_role := None;
                      msg_content := Text "make a folder called site";
                      msg_tool_calls := [] |} ];
     rewritten_prompt := None; plan := None |}.

End Graph.

(** ** The voice loop of [main.py] *)

Module Voice.
Import Graph.

(** What [r.recognize_google(audio)] can raise: the two classes the loop
    names, or an exception of any other class. *)
Inductive recognizer_error :=
| UnknownValueError
| RequestError (text : string)
| OtherError (class_name text : string).

(** The calls of one iteration that reach the outside, in program order;
    each of them blocks until it is done. *)
Inductive effect :=
| Print (line : string)
| Listen
| Recognize
| Stream (user_text : string)
| PrettyPrint (m : message)
| Speak (text : string).

(** A value streamed by the graph.  The graph is invoked with one user
    message and its reducer only appends, so a message list that is
    present is kept as its last element and the messages before it. *)
Record event := { ev_messages : option (list message * message) }.

(** What the outside does during one iteration. *)
Record round := {
  heard : outcome recognizer_error string;
  streamed : list event;
  speech_error : option string
}.

(** The body of [for event in graph.stream(...)]. *)
Definition observe (last_ai_text : option content) (ev : event)
    : list effect * option content :=
  match ev_messages ev with
  | Some (_, msg) =>
      ([PrettyPrint msg],
       if bool_decide (msg_type msg = "ai") && content_truthy (msg_content msg)
       then Some (msg_content msg)
       else last_ai_text)
  | None => ([], last_ai_text)
  end.

Fixpoint stream_loop (events : list event) (last_ai_text : option content)
    : list effect * option content :=
  match events with
  | [] => ([], last_ai_text)
  | ev :: rest =>
      let '(shown, last_ai_text') := observe last_ai_text ev in
      let '(shown', result) := stream_loop rest last_ai_text' in
      (shown ++ shown', result)
  end.

Definition summary_text (last_ai_text : option content) : string :=
  match last_ai_text with
  | Some c =>
      if content_truthy c then
        let text_str := content_str c in
        let short_text := Py.slice_to 400 text_str in
        "Here is my response: " +:+ short_text
      else "I have completed your request."
  | None => "I have completed your request."
  end.

(** How an iteration ends: the loop goes round again, or an exception
    leaves [main]. *)
Inductive flow := Again | Escapes (e : recognizer_error).

Definition prelude : list effect :=
  [Print "Say something!"; Listen; Print "Processing audio..."; Recognize].

Definition iteration (r : round) : list effect * flow :=
  match heard r with
  | Raised UnknownValueError =>
      (prelude ++
       [Print "Sorry, I could not understand the audio. Please try again."],
       Again)
  | Raised (RequestError e) =>
      (prelude ++
       [Print ("Could not request results from Google Speech Recognition service; "
               +:+ e)],
       Again)
  | Raised e => (prelude, Escapes e)
  | Returned sst =>
      let '(shown, last_ai_text) := stream_loop (streamed r) None in
      let summary_text := summary_text last_ai_text in
      (prelude ++ [Print ("You Said: " +:+ sst); Stream sst] ++ shown
       ++ [Speak summary_text]
       ++ match speech_error r with
          | Some e => [Print ("Error during speech synthesis: " +:+ e)]
          | None => []
          end,
       Again)
  end.

(** Where [while True] stands after the rounds given: blocked in
    [r.listen] for the next one, or left by an exception. *)
Inductive loop_state := Listening | Left (e : recognizer_error).

Fixpoint main (rounds : list round) : list effect * loop_state :=
  match rounds with
  | [] => ([], Listening)
  | r :: rest =>
      match iteration r with
      | (done, Again) =>
          let '(later, s) := main rest in (done ++ later, s)
      | (done, Escapes e) => (done, Left e)
      end
  end.

(** The steps of the cycle among the effects: everything but printing. *)
Definition is_step (e : effect) : bool :=
  match e with
  | Print _ | PrettyPrint _ => false
  | _ => true
  end.

Definition steps (l : list effect) : list effect := List.filter is_step l.

Definition is_stream (e : effect) : bool :=
  match e with Stream _ => true | _ => false end.

Definition is_recognize (e : effect) : bool :=
  match e with Recognize => true | _ => false end.


(** The round is one that the loop survives. *)
Definition survivable (r : round) : bool :=
  match heard r with
  | Raised (OtherError _ _) => false
  | _ => true
  end.

(** The content of the last message of [events] that is an AI message
    with a non-empty content. *)
Definition spoken_ai (ev : event) : option content :=
  match ev_messages ev with
  | Some (_, msg) =>
      if bool_decide (msg_type msg = "ai") && content_truthy (msg_content msg)
      then Some (msg_content msg) else None
  | None => None
  end.

Fixpoint last_ai (events : list event) : option content :=
  match events with
  | [] => None
  | ev :: rest =>
      match last_ai rest with
      | Some c => Some c
      | None => spoken_ai ev
      end
  end.

Definition ai (text : content) : message :=
  {| msg_type := "ai"; msg_role := None; msg_content := text;
     msg_tool_calls := [] |}.

Definition human (text : string) : message :=
  {| msg_type := "human"; msg_role := None; msg_content := Text text;
     msg_tool_calls := [] |}.

Definition unheard : round :=
  {| heard := Raised UnknownValueError; streamed := []; speech_error := None |}.

Definition answered : round :=
  {| heard := Returned "make a folder";
     streamed := [ {| ev_messages := Some ([], human "make a folder") |};
                   {| ev_messages := Some ([human "make a folder"], ai (Text "Done.")) |} ];
     speech_error := None |}.

End Voice.

(** * Properties *)

(** ** Strings and paths *)

Section PathFacts.
Import Py PosixPath.

Lemma str_app_cons (a : ascii) (s t : string) :
  String a s +:+ t = String a (s +:+ t).
Proof. reflexivity. Qed.

Lemma str_app_empty_l (t : string) : "" +:+ t = t.
Proof. reflexivity. Qed.

Lemma contains_drop (c : ascii) (n : nat) (s : string) :
  contains c s = false → contains c (drop n s) = false.
Proof.
  revert s. induction n as [|n IH]; intros [|a s]; simpl; auto.
  intros [_ H]%orb_false_iff. auto.
Qed.

(** What the scan returns: the index of the last hit, after which there
    is none, or the value it started with. *)
Lemma rfind_go_spec (c : ascii) (s : string) (i last : Z) :
  (rfind_go c s i last = last ∧ contains c s = false)
  ∨ ((i <= rfind_go c s i last)%Z
     ∧ contains c (drop (S (Z.to_nat (rfind_go c s i last - i))) s) = false).
Proof.
  revert i last. induction s as [|a s IH]; intros i last; simpl.
  - left. done.
  - destruct (IH (i + 1)%Z (if Ascii.eqb a c then i else last))
      as [[Hr Hc]|[Hle Hc]].
    + rewrite Hr. destruct (Ascii.eqb a c) eqn:E; simpl.
      * right. split; [lia|]. replace (i - i)%Z with 0%Z by lia. done.
      * left. done.
    + right. split; [lia|].
      replace (Z.to_nat (rfind_go c s (i + 1) (if Ascii.eqb a c then i else last) - i))
        with (S (Z.to_nat (rfind_go c s (i + 1) (if Ascii.eqb a c then i else last) - (i + 1))))
        by lia.
      exact Hc.
Qed.

(** A base name holds no separator. *)
Lemma basename_no_sep (p : string) : contains sep (basename p) = false.
Proof.
  unfold basename, rfind, slice_from.
  destruct (rfind_go_spec sep p 0 (-1)) as [[-> Hc]|[Hle Hc]].
  - exact Hc.
  - replace (Z.to_nat (rfind_go sep p 0 (-1) + 1))
      with (S (Z.to_nat (rfind_go sep p 0 (-1) - 0))) by lia.
    exact Hc.
Qed.

Lemma no_sep_startswith (b : string) :
  contains sep b = false → startswith b sep = false.
Proof. destruct b; simpl; [done|]. by intros [? _]%orb_false_iff. Qed.

Lemma no_sep_endswith (b : string) :
  contains sep b = false → endswith b sep = false.
Proof.
  induction b as [|a b IH]; simpl; [done|].
  intros [Ha Hb]%orb_false_iff. destruct b; auto.
Qed.

Lemma endswith_app (a : string) (c : ascii) (b : string) :
  truthy b = true → endswith (a +:+ b) c = endswith b c.
Proof.
  intros Hb. induction a as [|x a IH]; [done|].
  rewrite str_app_cons. simpl. rewrite IH.
  destruct (a +:+ b) eqn:E; [|done].
  destruct a, b; done.
Qed.

(** Joining a separator-free name to the project directory. *)
Lemma join_project (b : string) :
  contains sep b = false →
  join "chat_gpt" b = "chat_gpt/" +:+ b.
Proof.
  intros Hb. unfold join, join_step.
  by rewrite (no_sep_startswith b Hb).
Qed.

Lemma str_app_nil_r (s : string) : s +:+ "" = s.
Proof. induction s as [|a s IH]; [done|]. rewrite str_app_cons. by f_equal. Qed.

Lemma str_app_assoc (s t u : string) : (s +:+ t) +:+ u = s +:+ (t +:+ u).
Proof. induction s as [|a s IH]; [done|]. rewrite !str_app_cons. by f_equal. Qed.

Lemma rev_app_app (s t u : string) :
  String.rev_app s t +:+ u = String.rev_app s (t +:+ u).
Proof.
  revert t. induction s as [|a s IH]; intros t; simpl; [done|].
  by rewrite IH.
Qed.

Lemma rev_cons (a : ascii) (s : string) :
  String.rev (String a s) = String.rev s +:+ String a "".
Proof. unfold String.rev. simpl. by rewrite rev_app_app. Qed.

Lemma split_go_no_sep (c : ascii) (s cur : string) :
  contains c s = false → split_go c s cur = [String.rev cur +:+ s].
Proof.
  revert cur. induction s as [|a s IH]; intros cur; simpl.
  - intros _. by rewrite str_app_nil_r.
  - intros [-> Hs]%orb_false_iff. rewrite (IH _ Hs).
    by rewrite rev_cons, str_app_assoc.
Qed.

Lemma split_go_app (c : ascii) (a b cur : string) :
  contains c a = false →
  split_go c (a +:+ String c b) cur = (String.rev cur +:+ a) :: split_go c b "".
Proof.
  revert cur. induction a as [|x a IH]; intros cur; simpl.
  - intros _. rewrite Ascii.eqb_refl. by rewrite str_app_nil_r.
  - intros [Hx Ha]%orb_false_iff. rewrite Hx.
    rewrite (IH _ Ha). by rewrite rev_cons, str_app_assoc.
Qed.

(** The components of [chat_gpt/b]. *)
Lemma split_project (b : string) :
  contains sep b = false →
  split ("chat_gpt/" +:+ b) sep = ["chat_gpt"; b].
Proof.
  intros Hb. unfold split.
  change ("chat_gpt/" +:+ b) with ("chat_gpt" +:+ String sep b).
  rewrite split_go_app by reflexivity.
  rewrite split_go_no_sep by exact Hb. reflexivity.
Qed.

(** The components of [chat_gpt/b/f]. *)
Lemma split_project2 (b f : string) :
  contains sep b = false → contains sep f = false →
  split ("chat_gpt/" +:+ b +:+ "/" +:+ f) sep = ["chat_gpt"; b; f].
Proof.
  intros Hb Hf. unfold split.
  change ("chat_gpt/" +:+ b +:+ "/" +:+ f)
    with ("chat_gpt" +:+ String sep (b +:+ String sep f)).
  rewrite split_go_app by reflexivity.
  rewrite split_go_app by exact Hb.
  rewrite split_go_no_sep by exact Hf. reflexivity.
Qed.

End PathFacts.

(** ** The tools, for every behaviour of the operating system *)

Section ToolFacts.
Context {world exn : Type} `{!OS world exn}.
Import Tools.

Ltac tool_steps :=
  unfold try_except, call, read, update, mbind, M_bind, mret, M_ret.

(** [delete_folder] always returns: its only call that can raise is
    inside [try]. *)
Lemma delete_folder_returns (folder_name : string) (w : world) :
  ∃ message w', delete_folder folder_name w = (Returned message, w').
Proof.
  unfold delete_folder. tool_steps.
  destruct (os_path_exists _ w); simpl; [|eauto].
  destruct (shutil_rmtree _ w) as [[e|] w']; eauto.
Qed.

Lemma delete_file_returns (filename : string) (folder_name : option string)
    (w : world) :
  ∃ message w', delete_file filename folder_name w = (Returned message, w').
Proof.
  unfold delete_file. tool_steps.
  destruct (os_path_exists _ w); simpl; [|eauto].
  destruct (os_remove _ w) as [[e|] w']; eauto.
Qed.

(** [create_folder] raises exactly when its first [os.makedirs], the one
    before [try], does. *)
Lemma create_folder_raises (folder_name : string) (w w' : world) (e : exn) :
  create_folder folder_name w = (Raised e, w')
  ↔ os_makedirs CHAT_GPT_DIR w = (Some e, w').
Proof.
  unfold create_folder. tool_steps.
  destruct (os_makedirs CHAT_GPT_DIR w) as [[e0|] w0].
  - split; intros; simplify_eq; done.
  - split; [|done].
    destruct (os_makedirs _ w0) as [[e1|] w1]; done.
Qed.

Lemma create_code_file_raises (filename content : string)
    (folder_name : option string) (w w' : world) (e : exn) :
  create_code_file filename content folder_name w = (Raised e, w')
  ↔ os_makedirs (base_dir_of folder_name) w = (Some e, w').
Proof.
  unfold create_code_file. tool_steps.
  destruct (os_makedirs (base_dir_of folder_name) w) as [[e0|] w0].
  - split; intros; simplify_eq; done.
  - split; [|done].
    destruct (open_write _ _ w0) as [[e1|] w1]; done.
Qed.

(** [run_project] raises exactly when [thread.start()], which comes after
    its [try], does. *)
Lemma run_project_raises (w w' : world) (e : exn) :
  run_project w = (Raised e, w')
  ↔ ∃ w0 w1,
      os_makedirs CHAT_GPT_DIR w = (None, w0)
      ∧ os_chdir CHAT_GPT_DIR w0 = (None, w1)
      ∧ thread_start {| target := project_server; daemon := true |} w1
        = (Some e, w').
Proof.
  unfold run_project. tool_steps.
  destruct (os_makedirs CHAT_GPT_DIR w) as [[e0|] w0] eqn:Hmk.
  { split; [done|]. by intros (? & ? & ? & _). }
  destruct (os_chdir CHAT_GPT_DIR w0) as [[e1|] w1] eqn:Hcd.
  { split; [done|]. intros (? & ? & [= <-] & Hcd' & _).
    rewrite Hcd in Hcd'. done. }
  destruct (thread_start _ w1) as [[e2|] w2] eqn:Hstart.
  - split.
    + intros [= <- <-]. eauto.
    + intros (? & ? & [= <-] & Hcd' & Hs). rewrite Hcd in Hcd'.
      injection Hcd' as <-. rewrite Hstart in Hs. by injection Hs as <- <-.
  - split; [done|].
    intros (? & ? & [= <-] & Hcd' & Hs). rewrite Hcd in Hcd'.
    injection Hcd' as <-. rewrite Hstart in Hs. done.
Qed.

(** C9: when the target of [delete_folder] or of [delete_file] does not
    exist, the tool returns its "does not exist." message, raises nothing
    and leaves the world as it found it. *)
Theorem delete_missing_target (w : world) (folder_name filename : string)
    (folder : option string) :
  (os_path_exists (folder_target folder_name) w = false →
   delete_folder folder_name w
   = (Returned ("Folder " +:+ folder_target folder_name +:+ " does not exist."), w))
  ∧ (os_path_exists (file_target filename folder) w = false →
     delete_file filename folder w
     = (Returned ("File " +:+ file_target filename folder +:+ " does not exist."), w)).
Proof.
  split; intros Hmissing.
  - unfold delete_folder. tool_steps.
    fold (folder_target folder_name). by rewrite Hmissing.
  - unfold delete_file. tool_steps.
    fold (file_target filename folder). by rewrite Hmissing.
Qed.

End ToolFacts.

(** C9 on a file system that holds neither [chat_gpt/ghost] nor
    [chat_gpt/site/ghost.txt]. *)
Lemma delete_missing_target_witness :
  Tools.delete_folder "ghost" FS.fresh
  = (Returned "Folder chat_gpt/ghost does not exist.", FS.fresh)
  ∧ Tools.delete_file "ghost.txt" (Some "site") FS.fresh
    = (Returned "File chat_gpt/site/ghost.txt does not exist.", FS.fresh).
Proof.
  destruct (delete_missing_target FS.fresh "ghost" "ghost.txt" (Some "site"))
    as [Hfolder Hfile].
  split; [apply Hfolder | apply Hfile]; vm_compute; reflexivity.
Defined.

(** ** The tools on the tree file system *)

Section TreeFacts.
Import Tools FS.

Ltac tool_steps :=
  unfold try_except, call, read, update, mbind, M_bind, mret, M_ret.

Lemma enter_inside (base : list string) (c : string) :
  c ≠ ".." → base `prefix_of` enter base c.
Proof.
  intros Hc. unfold enter.
  destruct (bool_decide (c = "") || bool_decide (c = ".")); [done|].
  rewrite bool_decide_eq_false_2 by done.
  by apply prefix_app_r.
Qed.

(** A relative path of two components, the first of which is the project
    directory, resolves inside the project unless the second is [..]. *)
Lemma walk_project (w : world) (b : string) (p : list string) :
  b ≠ ".." →
  walk (tree w) (cwd w) ["chat_gpt"; b] = inr p → inside_project w p.
Proof.
  intros Hb. unfold inside_project, project_dir. simpl.
  destruct (lookup_node (tree w) (cwd w)) as [[|?]|]; [|done..].
  change (enter (cwd w) "chat_gpt") with (cwd w ++ ["chat_gpt"]).
  destruct (lookup_node (tree w) (cwd w ++ ["chat_gpt"])) as [[|?]|]; [|done..].
  intros [= <-]. by apply enter_inside.
Qed.

Lemma walk_project2 (w : world) (b f : string) (p : list string) :
  b ≠ ".." → f ≠ ".." →
  walk (tree w) (cwd w) ["chat_gpt"; b; f] = inr p → inside_project w p.
Proof.
  intros Hb Hf. unfold inside_project, project_dir. simpl.
  destruct (lookup_node (tree w) (cwd w)) as [[|?]|]; [|done..].
  change (enter (cwd w) "chat_gpt") with (cwd w ++ ["chat_gpt"]).
  destruct (lookup_node (tree w) (cwd w ++ ["chat_gpt"])) as [[|?]|]; [|done..].
  destruct (lookup_node (tree w) (enter (cwd w ++ ["chat_gpt"]) b))
    as [[|?]|]; [|done..].
  intros [= <-].
  etrans; [by apply (enter_inside _ b)|by apply enter_inside].
Qed.

Lemma folder_target_shape (folder_name : string) :
  folder_target folder_name
  = "chat_gpt/" +:+ PosixPath.basename (Py.strip folder_name).
Proof. apply join_project, basename_no_sep. Qed.

(** The target of a folder tool resolves inside the project for every
    argument whose sanitised name is not [..]. *)
Lemma folder_target_inside (w : world) (folder_name : string)
    (p : list string) :
  PosixPath.basename (Py.strip folder_name) ≠ ".." →
  resolve w (folder_target folder_name) = inr p → inside_project w p.
Proof.
  intros Hb. rewrite folder_target_shape.
  unfold resolve, resolve_in, origin.
  change (Py.truthy _) with true. change (Py.startswith _ _) with false.
  cbv iota. rewrite split_project by apply basename_no_sep.
  by apply walk_project.
Qed.

Lemma file_target_shape (filename : string) (folder : option string) :
  file_target filename folder = "chat_gpt/" +:+ PosixPath.basename filename
  ∨ ∃ folder_name,
      folder = Some folder_name
      ∧ file_target filename folder
        = "chat_gpt/" +:+ PosixPath.basename (Py.strip folder_name)
          +:+ "/" +:+ PosixPath.basename filename.
Proof.
  pose proof (basename_no_sep filename) as Hf.
  unfold file_target, base_dir_of, CHAT_GPT_DIR.
  destruct folder as [folder_name|]; [|left; by apply join_project].
  destruct (Py.truthy folder_name); [|left; by apply join_project].
  pose proof (basename_no_sep (Py.strip folder_name)) as Hb.
  rewrite (join_project _ Hb).
  unfold PosixPath.join, PosixPath.join_step.
  rewrite (no_sep_startswith _ Hf).
  destruct (PosixPath.basename (Py.strip folder_name)) as [|a b] eqn:E.
  - left. reflexivity.
  - right. exists folder_name. split; [done|].
    rewrite endswith_app by done. rewrite (no_sep_endswith _ Hb).
    rewrite E. change (negb (Py.truthy _)) with false. cbv iota. simpl orb.
    cbv iota. by rewrite str_app_assoc.
Qed.

(** The target of a file tool resolves inside the project when neither
    sanitised name is [..]. *)
Lemma file_target_inside (w : world) (filename : string)
    (folder : option string) (p : list string) :
  PosixPath.basename filename ≠ ".." →
  (∀ folder_name, folder = Some folder_name →
     PosixPath.basename (Py.strip folder_name) ≠ "..") →
  resolve w (file_target filename folder) = inr p → inside_project w p.
Proof.
  intros Hf Hfolder.
  destruct (file_target_shape filename folder) as [->|(fn & -> & ->)];
    unfold resolve, resolve_in, origin;
    change (Py.truthy _) with true; change (Py.startswith _ _) with false;
    cbv iota.
  - rewrite split_project by apply basename_no_sep. by apply walk_project.
  - rewrite split_project2 by apply basename_no_sep.
    apply walk_project2; [by apply Hfolder|done].
Qed.

(** Every path that a tool builds is relative. *)
Lemma targets_relative (folder_name filename : string)
    (folder : option string) :
  Py.startswith (folder_target folder_name) PosixPath.sep = false
  ∧ Py.startswith (file_target filename folder) PosixPath.sep = false.
Proof.
  split; [by rewrite folder_target_shape|].
  by destruct (file_target_shape filename folder) as [->|(fn & -> & ->)].
Qed.

Lemma base_dir_relative (folder : option string) :
  Py.startswith (base_dir_of folder) PosixPath.sep = false.
Proof.
  unfold base_dir_of, CHAT_GPT_DIR. destruct folder as [f|]; [|done].
  destruct (Py.truthy f); [|done].
  by rewrite join_project by apply basename_no_sep.
Qed.

(** No operation but [chdir] moves the working directory. *)
Lemma makedirs_cwd (path : string) (w : world) : cwd (makedirs path w).2 = cwd w.
Proof.
  unfold makedirs. destruct (Py.truthy path); [|done].
  by destruct (makedirs_walk _ _ _) as [[e|] t].
Qed.

Lemma write_file_cwd (path content : string) (w : world) :
  cwd (write_file path content w).2 = cwd w.
Proof.
  unfold write_file. destruct (resolve w path) as [e|p]; [done|].
  by destruct (lookup_node _ _) as [[|?]|].
Qed.

Lemma rmtree_cwd (path : string) (w : world) : cwd (rmtree path w).2 = cwd w.
Proof.
  unfold rmtree. destruct (resolve w path) as [e|p]; [done|].
  destruct (lookup_node _ _) as [[|?]|]; [|done..].
  repeat case_bool_decide; [done| |done].
  by destruct (resolve_in _ _ _).
Qed.

Lemma remove_cwd (path : string) (w : world) : cwd (remove path w).2 = cwd w.
Proof.
  unfold remove. destruct (resolve w path) as [e|p]; [done|].
  by destruct (lookup_node _ _) as [[|?]|].
Qed.

(** The four file and folder tools leave the working directory alone. *)
Lemma tools_keep_cwd (w : world) (folder_name filename content : string)
    (folder : option string) :
  cwd (create_folder folder_name w).2 = cwd w
  ∧ cwd (create_code_file filename content folder w).2 = cwd w
  ∧ cwd (delete_folder folder_name w).2 = cwd w
  ∧ cwd (delete_file filename folder w).2 = cwd w.
Proof.
  repeat split.
  - unfold create_folder. tool_steps. simpl.
    pose proof (makedirs_cwd CHAT_GPT_DIR w) as H1.
    destruct (makedirs CHAT_GPT_DIR w) as [[e|] w1]; [done|].
    match goal with |- context [makedirs ?p w1] =>
      pose proof (makedirs_cwd p w1) as H2;
      destruct (makedirs p w1) as [[e|] w2] end; simpl in *; congruence.
  - unfold create_code_file. tool_steps. simpl.
    pose proof (makedirs_cwd (base_dir_of folder) w) as H1.
    destruct (makedirs (base_dir_of folder) w) as [[e|] w1]; [done|].
    match goal with |- context [write_file ?p ?c w1] =>
      pose proof (write_file_cwd p c w1) as H2;
      destruct (write_file p c w1) as [[e|] w2] end; simpl in *; congruence.
  - unfold delete_folder. tool_steps. simpl.
    destruct (exists_ _ w); simpl; [|done].
    match goal with |- context [rmtree ?p w] =>
      pose proof (rmtree_cwd p w) as H2;
      destruct (rmtree p w) as [[e|] w2] end; simpl in *; congruence.
  - unfold delete_file. tool_steps. simpl.
    destruct (exists_ _ w); simpl; [|done].
    match goal with |- context [remove ?p w] =>
      pose proof (remove_cwd p w) as H2;
      destruct (remove p w) as [[e|] w2] end; simpl in *; congruence.
Qed.

(** What a successful [run_project] leaves behind. *)
Lemma run_project_started (w w' : world) :
  run_project w = (Returned started, w') →
  ∃ t, w' = {| cwd := project_dir w; tree := t;
               threads := threads w
                          ++ [{| target := project_server; daemon := true |}] |}.
Proof.
  unfold run_project. tool_steps. simpl.
  unfold makedirs. change (Py.truthy CHAT_GPT_DIR) with true. cbv iota.
  change (origin w CHAT_GPT_DIR) with (cwd w).
  destruct (makedirs_walk _ _ _) as [[e|] t]; simpl; [intros [= H]; done|].
  unfold chdir, resolve, resolve_in.
  change (Py.truthy CHAT_GPT_DIR) with true. cbv iota.
  change (origin (with_tree w t) CHAT_GPT_DIR) with (cwd w).
  change (Py.split CHAT_GPT_DIR PosixPath.sep) with ["chat_gpt"].
  simpl.
  destruct (lookup_node t (cwd w)) as [[|?]|]; simpl; try (intros [= H]; done).
  change (enter (cwd w) "chat_gpt") with (project_dir w).
  destruct (lookup_node t (project_dir w)) as [[|?]|]; simpl;
    try (intros [= H]; done).
  intros [= <-]. by exists t.
Qed.

End TreeFacts.

Section ToolClaims.
Import Tools FS.

(** C1, at the folder name [..]: [create_code_file] sanitises it to
    [..] itself, builds the path [chat_gpt/../x.txt] and writes the file
    [/work/x.txt], which is not inside [/work/chat_gpt]. *)
Theorem create_code_file_leaves_project :
  create_code_file "x.txt" "c" (Some "..") fresh
  = (Returned "File created/updated at chat_gpt/../x.txt",
     with_tree fresh (<[["work"; "x.txt"] := File "c"]> (tree fresh)))
  ∧ file_target "x.txt" (Some "..") = "chat_gpt/../x.txt"
  ∧ resolve fresh (file_target "x.txt" (Some "..")) = inr ["work"; "x.txt"]
  ∧ ¬ inside_project fresh ["work"; "x.txt"].
Proof.
  split; [vm_compute; reflexivity|].
  split; [vm_compute; reflexivity|].
  split; [vm_compute; reflexivity|].
  unfold inside_project. intros H. by apply (bool_decide_pack _) in H.
Qed.

(** [delete_folder("..")] hands [chat_gpt/..] to [shutil.rmtree]: what lies
    next to the project is removed with it. *)
Lemma delete_folder_empties_parent :
  delete_folder ".." with_notes
  = (Returned "Failed to delete folder: [Errno 2] No such file or directory: 'chat_gpt/..'",
     with_tree fresh (<[["work"] := Dir]> ∅)).
Proof. vm_compute. reflexivity. Qed.

(** C3, where [chat_gpt] is a regular file: the [os.makedirs] that
    [create_folder] and [create_code_file] call before their [try] raises
    [FileExistsError], and the tool lets it through instead of returning a
    "Failed to ..." string.  Three tool calls on a fresh working directory
    lead to such a place. *)
Theorem create_tools_raise_when_blocked :
  create_folder "site" blocked
  = (Raised {| err_no := EEXIST; err_filename := "chat_gpt" |}, blocked)
  ∧ create_code_file "index.html" "<html>" None blocked
    = (Raised {| err_no := EEXIST; err_filename := "chat_gpt" |}, blocked)
  ∧ cwd self_blocked = ["work"; "chat_gpt"; "chat_gpt"]
  ∧ tree self_blocked !! ["work"; "chat_gpt"; "chat_gpt"; "chat_gpt"]
    = Some (File "x")
  ∧ create_folder "site" self_blocked
    = (Raised {| err_no := EEXIST; err_filename := "chat_gpt" |}, self_blocked).
Proof. repeat split; vm_compute; reflexivity. Qed.

(** C6, as amended: a successful [run_project] has started one daemon
    thread that serves the working directory, by then the project
    directory, at localhost:8000 with a [ThreadingHTTPServer], which hands
    every request to a thread of its own. *)
Theorem run_project_server (w w' : world) :
  run_project w = (Returned started, w') →
  threads w'
  = threads w
    ++ [{| target := {| srv_class := ThreadingHTTPServer;
                        srv_host := "localhost";
                        srv_port := 8000;
                        srv_handler := SimpleHTTPRequestHandler |};
           daemon := true |}]
  ∧ SocketServer.served_directory w' = project_dir w
  ∧ ∀ th request,
      th ∈ drop (length (threads w)) (threads w') →
      SocketServer.process_request (srv_class (target th)) request
      = SocketServer.NewThread request.
Proof.
  intros [t ->]%run_project_started. simpl.
  split; [done|]. split; [done|].
  intros th request. rewrite drop_app_length.
  by intros ->%list_elem_of_singleton.
Qed.

Lemma run_project_server_witness :
  let w' := (run_project fresh).2 in
  run_project fresh = (Returned started, w')
  ∧ threads w' = [{| target := project_server; daemon := true |}]
  ∧ SocketServer.served_directory w' = ["work"; "chat_gpt"].
Proof.
  assert (Hrun : run_project fresh = (Returned started, (run_project fresh).2))
    by (vm_compute; reflexivity).
  destruct (run_project_server fresh _ Hrun) as (Hth & Hdir & _).
  split; [exact Hrun|]. split; [exact Hth | exact Hdir].
Defined.

(** C6 as it is stated fails: the server that [run_project] starts on the
    fresh file system is not single-threaded. *)
Lemma run_project_server_not_single_threaded :
  ¬ (∀ th, th ∈ threads (run_project fresh).2 →
           SocketServer.single_threaded (srv_class (target th))).
Proof.
  intros H.
  specialize (H {| target := project_server; daemon := true |}).
  assert (Hin : {| target := project_server; daemon := true |}
                ∈ threads (run_project fresh).2).
  { vm_compute. apply list_elem_of_here. }
  specialize (H Hin 0). discriminate H.
Qed.

(** C8: a successful [run_project] leaves the process in the project
    directory; every relative path, those built by the other tools among
    them, is resolved from there afterwards, and none of the other tools
    moves the working directory again. *)
Theorem run_project_changes_directory (w w' : world) :
  run_project w = (Returned started, w') →
  cwd w' = project_dir w
  ∧ (∀ path, Py.startswith path PosixPath.sep = false →
             origin w' path = project_dir w)
  ∧ (∀ folder_name filename folder,
       origin w' (folder_target folder_name) = project_dir w
       ∧ origin w' (file_target filename folder) = project_dir w
       ∧ origin w' (base_dir_of folder) = project_dir w)
  ∧ (∀ folder_name filename content folder,
       cwd (create_folder folder_name w').2 = project_dir w
       ∧ cwd (create_code_file filename content folder w').2 = project_dir w
       ∧ cwd (delete_folder folder_name w').2 = project_dir w
       ∧ cwd (delete_file filename folder w').2 = project_dir w).
Proof.
  intros [t ->]%run_project_started.
  split; [done|].
  split; [intros path Hrel; unfold origin; by rewrite Hrel|].
  split.
  - intros folder_name filename folder.
    destruct (targets_relative folder_name filename folder) as [H1 H2].
    unfold origin. by rewrite H1, H2, base_dir_relative.
  - intros folder_name filename content folder.
    set (here := {| cwd := project_dir w; tree := t; threads := _ |}).
    change (project_dir w) with (cwd here).
    apply tools_keep_cwd.
Qed.

Lemma run_project_changes_directory_witness :
  let w' := (run_project fresh).2 in
  run_project fresh = (Returned started, w')
  ∧ cwd w' = ["work"; "chat_gpt"]
  ∧ tree (create_folder "site" w').2
      !! ["work"; "chat_gpt"; "chat_gpt"; "site"] = Some Dir.
Proof.
  assert (Hrun : run_project fresh = (Returned started, (run_project fresh).2))
    by (vm_compute; reflexivity).
  destruct (run_project_changes_directory fresh _ Hrun) as (Hcwd & _).
  split; [exact Hrun|]. split; [exact Hcwd | vm_compute; reflexivity].
Defined.

End ToolClaims.

(** ** The conversation graph *)

Section GraphFacts.
Import Graph.

Variable helper_llm : string → message.
Variable llm_with_tool : list message → message.
Variable run_tool : tool_call → message.
Variable rewrite_template : string → string.
Variable plan_template : string → string → string.
Variable system_template : string → string → string → string.

Local Abbreviation rewrite_node := (rewrite_node helper_llm rewrite_template).
Local Abbreviation plan_node := (plan_node helper_llm plan_template).
Local Abbreviation chatbot := (chatbot llm_with_tool system_template).
Local Abbreviation tool_node := (tool_node run_tool).
Local Abbreviation run :=
  (run helper_llm llm_with_tool run_tool rewrite_template plan_template
     system_template).
Local Abbreviation invoke :=
  (invoke helper_llm llm_with_tool run_tool rewrite_template plan_template
     system_template).
Local Abbreviation chat_state :=
  (chat_state helper_llm llm_with_tool run_tool rewrite_template
     plan_template system_template).
Local Abbreviation reply_calls := (reply_calls llm_with_tool system_template).
Local Abbreviation follows_order :=
  (follows_order helper_llm llm_with_tool run_tool rewrite_template
     plan_template system_template).

Lemma last_snoc (l : list message) (m : message) :
  List.last (Some <$> (l ++ [m])) None = Some m.
Proof. rewrite fmap_app. simpl. apply last_last. Qed.

(** The path function answers [tools] or [END] and nothing else. *)
Lemma tools_condition_range (st : State) (t : string) :
  tools_condition st = Some t → t = "tools" ∨ t = END.
Proof.
  unfold tools_condition.
  destruct (List.last _ _) as [m|]; [|done].
  destruct (msg_tool_calls m); intros [= <-]; auto.
Qed.

(** After the chatbot node it never raises. *)
Lemma tools_condition_chatbot (st : State) :
  tools_condition (chatbot st) = Some "tools"
  ∨ tools_condition (chatbot st) = Some END.
Proof.
  unfold tools_condition, Graph.chatbot. simpl. rewrite last_snoc.
  destruct (msg_tool_calls _); auto.
Qed.

Lemma triggered_start : static_targets graph_builder START = ["rewrite"].
Proof. vm_compute. reflexivity. Qed.

Lemma triggered_rewrite (st : State) :
  triggered graph_builder "rewrite" st = Some ["plan"].
Proof. vm_compute. reflexivity. Qed.

Lemma triggered_plan (st : State) :
  triggered graph_builder "plan" st = Some ["chatbot"].
Proof. vm_compute. reflexivity. Qed.

Lemma triggered_tools (st : State) :
  triggered graph_builder "tools" st = Some ["chatbot"].
Proof. vm_compute. reflexivity. Qed.

Lemma triggered_chatbot (st : State) :
  triggered graph_builder "chatbot" st
  = match tools_condition st with
    | Some t => Some (if bool_decide (t = END) then [] else [t])
    | None => None
    end.
Proof.
  unfold triggered, branch_targets.
  replace (static_targets graph_builder "chatbot") with [END]
    by (vm_compute; reflexivity).
  replace (filter (λ b, b.1 = "chatbot") (branches graph_builder))
    with [("chatbot", ToolsCondition)] by (vm_compute; reflexivity).
  simpl. destruct (tools_condition st) as [t|] eqn:E; [|done].
  simpl. destruct (tools_condition_range _ _ E) as [-> | ->]; done.
Qed.

Lemma run_S (g : StateGraph) (fuel : nat) (n : string) (st : State) :
  run g (S fuel) n st
  = match nodes g !! n with
    | None => ([], st, Failed)
    | Some r =>
        let st' :=
          run_node helper_llm llm_with_tool run_tool rewrite_template
            plan_template system_template r st in
        match triggered g n st' with
        | None => ([n], st', Failed)
        | Some next =>
            match fuel with
            | O => ([n], st', OutOfSteps)
            | S _ =>
                match next with
                | [] => ([n], st', Finished)
                | [m] =>
                    let '(ran, st'', s) := run g fuel m st' in
                    (n :: ran, st'', s)
                | _ => ([n], st', Forked)
                end
            end
        end
    end.
Proof. reflexivity. Qed.

Lemma node_rewrite : nodes graph_builder !! "rewrite" = Some RewriteNode.
Proof. vm_compute. reflexivity. Qed.

Lemma node_plan : nodes graph_builder !! "plan" = Some PlanNode.
Proof. vm_compute. reflexivity. Qed.

Lemma node_chatbot : nodes graph_builder !! "chatbot" = Some Chatbot.
Proof. vm_compute. reflexivity. Qed.

Lemma node_tools : nodes graph_builder !! "tools" = Some ToolNode.
Proof. vm_compute. reflexivity. Qed.

(** What the chatbot node triggers is decided by the tool calls of the
    reply it has added. *)
Lemma triggered_after_chatbot (st : State) :
  triggered graph_builder "chatbot" (chatbot st)
  = Some (match reply_calls st with
          | [] => []
          | _ :: _ => ["tools"]
          end).
Proof.
  rewrite triggered_chatbot.
  unfold tools_condition, Graph.reply_calls, Graph.chatbot. simpl.
  rewrite last_snoc, list.last_snoc. simpl.
  by destruct (msg_tool_calls _).
Qed.

(** One step of a run at each of the four nodes, with steps left. *)
Lemma run_chatbot_step (fuel : nat) (st : State) :
  run graph_builder (S (S fuel)) "chatbot" st
  = match reply_calls st with
    | [] => (["chatbot"], chatbot st, Finished)
    | _ :: _ =>
        let '(ran, st', s) :=
          run graph_builder (S fuel) "tools" (chatbot st) in
        ("chatbot" :: ran, st', s)
    end.
Proof.
  rewrite run_S, node_chatbot. cbv zeta.
  change (Graph.run_node _ _ _ _ _ _ Chatbot st) with (chatbot st).
  rewrite triggered_after_chatbot. by destruct (reply_calls st).
Qed.

Lemma run_tools_step (fuel : nat) (st : State) :
  run graph_builder (S (S fuel)) "tools" st
  = let '(ran, st', s) :=
      run graph_builder (S fuel) "chatbot" (tool_node st) in
    ("tools" :: ran, st', s).
Proof. rewrite run_S, node_tools. cbv zeta. by rewrite triggered_tools. Qed.

Lemma run_last_step (n : string) (r : runnable) (st : State) :
  nodes graph_builder !! n = Some r →
  is_Some (triggered graph_builder n
             (run_node helper_llm llm_with_tool run_tool rewrite_template
                plan_template system_template r st)) →
  run graph_builder 1 n st
  = ([n],
     run_node helper_llm llm_with_tool run_tool rewrite_template
       plan_template system_template r st,
     OutOfSteps).
Proof. intros Hn [next Hnext]. rewrite run_S, Hn. cbv zeta. by rewrite Hnext. Qed.

Lemma run_chatbot_last (st : State) :
  run graph_builder 1 "chatbot" st = (["chatbot"], chatbot st, OutOfSteps).
Proof.
  apply (run_last_step "chatbot" Chatbot); [apply node_chatbot|].
  change (Graph.run_node _ _ _ _ _ _ Chatbot st) with (chatbot st).
  rewrite triggered_after_chatbot. eauto.
Qed.

Lemma run_tools_last (st : State) :
  run graph_builder 1 "tools" st = (["tools"], tool_node st, OutOfSteps).
Proof.
  apply (run_last_step "tools" ToolNode); [apply node_tools|].
  rewrite triggered_tools. eauto.
Qed.



Lemma tool_rounds_snoc (j : nat) :
  tool_rounds (S j) = tool_rounds j ++ ["chatbot"; "tools"].
Proof. induction j as [|j IH]; [done|]. simpl in *. by rewrite <- IH. Qed.

Lemma order_shift (j : nat) (ran : list string) :
  ("rewrite" :: "plan" :: tool_rounds (S j)) ++ ran
  = ("rewrite" :: "plan" :: tool_rounds j) ++ "chatbot" :: "tools" :: ran.
Proof. rewrite tool_rounds_snoc. simpl. by rewrite <- app_assoc. Qed.

Lemma tool_rounds_length (j : nat) : length (tool_rounds j) = 2 * j.
Proof. induction j as [|j IH]; simpl; lia. Qed.


Lemma run_from_chatbot_order (input : State) (fuel : nat) :
  ∀ j, (∀ i, i < j → reply_calls (chat_state input i) ≠ []) →
       ∃ k, follows_order input fuel k
              (run graph_builder fuel "chatbot" (chat_state input j))
              ("rewrite" :: "plan" :: tool_rounds j).
Proof.
  induction fuel as [fuel IH] using lt_wf_ind. intros j Hasks.
  assert (Hbefore : length ("rewrite" :: "plan" :: tool_rounds j) = 2 * j + 2).
  { simpl. rewrite tool_rounds_length. lia. }
  destruct fuel as [|[|fuel]].
  { exists j. right. cbn [Graph.run fst snd]. rewrite app_nil_r.
    split; [done|]. split; [by exists ["chatbot"]|]. split; [|done].
    intros i Hi. apply Hasks. lia. }
  { exists j. right. rewrite run_chatbot_last. cbn [fst snd].
    split; [done|]. split; [by exists []; rewrite app_nil_r|].
    split; [|done]. intros i Hi. apply Hasks.
    rewrite length_app in Hi. simpl length in *. lia. }
  rewrite run_chatbot_step.
  destruct (reply_calls (chat_state input j)) as [|c calls] eqn:Hj.
  { exists j. left. cbn [fst snd]. repeat split; try done. simpl. lia. }
  assert (Hnow : reply_calls (chat_state input j) ≠ []) by (by rewrite Hj).
  assert (Hmore : ∀ i, i < S j → reply_calls (chat_state input i) ≠ []).
  { intros i Hi. destruct (decide (i = j)) as [->|]; [done|].
    apply Hasks. lia. }
  destruct fuel as [|fuel].
  { exists (S j). right. rewrite run_tools_last. cbn [fst snd].
    split; [done|]. split.
    - exists ["chatbot"]. unfold schedule. rewrite tool_rounds_snoc. simpl.
      by rewrite <- !app_assoc.
    - split; [|done]. intros i Hi. apply Hmore.
      rewrite length_app in Hi. simpl length in *. lia. }
  rewrite run_tools_step.
  change (tool_node (chatbot (chat_state input j)))
    with (chat_state input (S j)).
  destruct (IH (S fuel) ltac:(lia) (S j) Hmore) as [k Hk].
  exists k.
  destruct (run graph_builder (S fuel) "chatbot" (chat_state input (S j)))
    as [[ran st] s].
  unfold Graph.follows_order in *. cbn [fst snd] in *.
  rewrite order_shift in Hk.
  destruct Hk as [(-> & Hran & Hst & Hstop & Hall & Hlen)
                 |(-> & Hran & Hall & Hlen)].
  - left. repeat split; try done. simpl. lia.
  - right. repeat split; try done. simpl. lia.
Qed.

Lemma invoke_follows_order (input : State) (fuel : nat) :
  ∃ k, follows_order input fuel k (invoke graph_builder fuel input) [].
Proof.
  unfold Graph.invoke. rewrite triggered_start.
  destruct fuel as [|[|[|fuel]]].
  { exists 0. right. simpl. split; [done|]. split; [apply prefix_nil|].
    split; [|done]. intros i Hi. simpl in Hi. lia. }
  { exists 0. right.
    rewrite (run_last_step "rewrite" RewriteNode);
      [|apply node_rewrite|rewrite triggered_rewrite; eauto].
    simpl. split; [done|]. split; [by exists ["plan"; "chatbot"]|].
    split; [|done]. intros i Hi. lia. }
  { exists 0. right.
    rewrite run_S, node_rewrite. cbv zeta. rewrite triggered_rewrite.
    rewrite (run_last_step "plan" PlanNode);
      [|apply node_plan|rewrite triggered_plan; eauto].
    simpl. split; [done|]. split; [by exists ["chatbot"]|].
    split; [|done]. intros i Hi. lia. }
  rewrite run_S, node_rewrite. cbv zeta. simpl Graph.run_node.
  rewrite triggered_rewrite.
  rewrite run_S, node_plan. cbv zeta. simpl Graph.run_node.
  rewrite triggered_plan.
  change (plan_node (rewrite_node input)) with (chat_state input 0).
  destruct (run_from_chatbot_order input (S fuel) 0) as [k Hk];
    [intros; lia|].
  exists k.
  destruct (run graph_builder (S fuel) "chatbot" (chat_state input 0))
    as [[ran st] s].
  unfold Graph.follows_order in *. simpl in *.
  destruct Hk as [(-> & Hran & Hst & Hstop & Hall & Hlen)
                 |(-> & Hran & Hall & Hlen)].
  - left. repeat split; try done. lia.
  - right. repeat split; try done. lia.
Qed.


End GraphFacts.


(** C2, as amended: four nodes; one conditional edge, out of the chatbot,
    which leads to the tools node or to the end; the unconditional edges
    are the four that are listed and one more, from the chatbot to the end;
    every node but the chatbot has a single successor. *)
Theorem graph_shape :
  dom (Graph.nodes Graph.graph_builder)
  = ({[ "rewrite"; "plan"; "chatbot"; "tools" ]} : gset string)
  ∧ Graph.branches Graph.graph_builder = [("chatbot", Graph.ToolsCondition)]
  ∧ (∀ st t, Graph.eval_path Graph.ToolsCondition st = Some t →
             t = "tools" ∨ t = Graph.END)
  ∧ Graph.edges Graph.graph_builder
    = Graph.listed_edges ∪ {[ ("chatbot", Graph.END) ]}
  ∧ Graph.static_targets Graph.graph_builder Graph.START = ["rewrite"]
  ∧ Graph.static_targets Graph.graph_builder "rewrite" = ["plan"]
  ∧ Graph.static_targets Graph.graph_builder "plan" = ["chatbot"]
  ∧ Graph.static_targets Graph.graph_builder "tools" = ["chatbot"]
  ∧ Graph.static_targets Graph.graph_builder "chatbot" = [Graph.END].
Proof.
  split; [vm_compute; reflexivity|].
  split; [reflexivity|].
  split; [intros st t; apply tools_condition_range|].
  repeat split; vm_compute; reflexivity.
Qed.

(** C2 as it is stated fails: the builder holds an unconditional edge that
    is not among the four listed, from the chatbot to the end. *)
Lemma graph_edges_not_as_listed :
  (("chatbot", Graph.END) ∈ Graph.edges Graph.graph_builder)
  ∧ (("chatbot", Graph.END) ∉ Graph.listed_edges)
  ∧ (Graph.edges Graph.graph_builder ≠ Graph.listed_edges).
Proof.
  assert (Hin : ("chatbot", Graph.END) ∈ Graph.edges Graph.graph_builder)
    by (apply (bool_decide_unpack _); vm_compute; exact I).
  assert (Hout : ("chatbot", Graph.END) ∉ Graph.listed_edges)
    by (apply (bool_decide_unpack _); vm_compute; exact I).
  split; [done|]. split; [done|].
  intros Heq. apply Hout. by rewrite <- Heq.
Qed.

(** ** The voice loop *)

Section VoiceFacts.
Import Graph Voice.

Lemma slice_to_length (n : nat) (s : string) :
  String.length (Py.slice_to n s) = n `min` String.length s.
Proof.
  revert s. induction n as [|n IH]; intros [|a s]; simpl; auto.
Qed.

Lemma slice_to_drop (n : nat) (s : string) :
  s = Py.slice_to n s +:+ Py.drop n s.
Proof.
  revert s. induction n as [|n IH]; intros [|a s]; simpl; auto.
  rewrite str_app_cons. f_equal. apply IH.
Qed.

Lemma str_length_app (s t : string) :
  String.length (s +:+ t) = String.length s + String.length t.
Proof. induction s as [|a s IH]; simpl; auto. Qed.

(** The loop over the stream keeps the content of the last AI message
    that has one, or what it started with. *)
Lemma stream_loop_last (events : list event) (start : option content) :
  (stream_loop events start).2
  = match last_ai events with
    | Some c => Some c
    | None => start
    end.
Proof.
  revert start. induction events as [|ev rest IH]; intros start; [done|].
  simpl. destruct (observe start ev) as [shown seen] eqn:Eobs.
  specialize (IH seen).
  destruct (stream_loop rest seen) as [shown' result]. simpl in *.
  rewrite IH. destruct (last_ai rest); [done|].
  unfold observe in Eobs. unfold spoken_ai.
  destruct (ev_messages ev) as [[before msg]|]; simplify_eq; [|done].
  by destruct (bool_decide _ && _).
Qed.

Lemma spoken_ai_truthy (ev : event) (c : content) :
  spoken_ai ev = Some c → content_truthy c = true.
Proof.
  unfold spoken_ai. destruct (ev_messages ev) as [[before msg]|]; [|done].
  destruct (bool_decide _ && content_truthy _) eqn:E; [|done].
  intros [= <-]. by apply andb_true_iff in E as [_ ?].
Qed.

Lemma last_ai_truthy (events : list event) (c : content) :
  last_ai events = Some c → content_truthy c = true.
Proof.
  induction events as [|ev rest IH]; [done|]. simpl.
  destruct (last_ai rest); [intros [= <-]; by apply IH|].
  apply spoken_ai_truthy.
Qed.

Lemma commas_concat (l : list string) : commas l = String.concat ", " l.
Proof.
  induction l as [|x l IH]; [done|]. destruct l as [|y l]; [done|].
  change (commas (x :: y :: l)) with (x +:+ ", " +:+ commas (y :: l)).
  by rewrite IH.
Qed.

Lemma app_whole (s short rest : string) :
  s = short +:+ rest → String.length short = String.length s → short = s.
Proof.
  intros -> Hlen. rewrite str_length_app in Hlen.
  destruct rest; [by rewrite str_app_nil_r|]. simpl in Hlen. lia.
Qed.

(** C10: the text that is spoken after a response is fixed by the last AI
    message with a non-empty content.  For a string [s] it is the prefix
    "Here is my response: " followed by the first 400 characters of [s],
    all of [s] when it is shorter; for a list it is that prefix followed by
    the first 400 characters of the list written as a string, its items
    between brackets and separated by ", ".  Without such a message it is
    "I have completed your request.".  It never exceeds 421 characters. *)
Theorem summary_text_spec (events : list event) :
  let collected := (stream_loop events None).2 in
  let spoken := summary_text collected in
  collected = last_ai events
  ∧ match collected with
    | Some (Text s) =>
        s ≠ ""
        ∧ ∃ short rest,
            s = short +:+ rest
            ∧ String.length short = 400 `min` String.length s
            ∧ spoken = "Here is my response: " +:+ short
    | Some (Blocks reprs) =>
        reprs ≠ []
        ∧ ∃ short rest,
            "[" +:+ String.concat ", " reprs +:+ "]" = short +:+ rest
            ∧ String.length short
              = 400 `min` String.length ("[" +:+ String.concat ", " reprs +:+ "]")
            ∧ spoken = "Here is my response: " +:+ short
    | None => spoken = "I have completed your request."
    end
  ∧ String.length spoken ≤ 421.
Proof.
  cbv zeta. rewrite stream_loop_last.
  assert (Hsame : match last_ai events with Some c => Some c | None => None end
                  = last_ai events) by (by destruct (last_ai events)).
  rewrite Hsame. split; [done|].
  destruct (last_ai events) as [c|] eqn:E; [|split; [done|simpl; lia]].
  pose proof (last_ai_truthy _ _ E) as Htruthy.
  unfold summary_text. rewrite Htruthy.
  split; [|rewrite str_length_app, slice_to_length; simpl String.length; lia].
  destruct c as [s|reprs]; simpl content_str.
  - split; [by intros ->|].
    exists (Py.slice_to 400 s), (Py.drop 400 s).
    split; [apply slice_to_drop|]. split; [apply slice_to_length|done].
  - split; [by intros ->|]. rewrite commas_concat.
    set (text := "[" +:+ String.concat ", " reprs +:+ "]").
    exists (Py.slice_to 400 text), (Py.drop 400 text).
    split; [apply slice_to_drop|]. split; [apply slice_to_length|done].
Qed.

(** C10 on a reply that is a string and on a reply that is a list of two
    blocks. *)
Lemma summary_text_spec_witness :
  summary_text
    (stream_loop [ {| ev_messages := Some ([], ai (Text "Done.")) |} ] None).2
  = "Here is my response: Done."
  ∧ summary_text
      (stream_loop
         [ {| ev_messages := Some ([], ai (Blocks ["'a'"; "'b'"])) |} ] None).2
    = "Here is my response: ['a', 'b']".
Proof.
  split.
  - destruct (summary_text_spec
                [ {| ev_messages := Some ([], ai (Text "Done.")) |} ])
      as (_ & Hspoken & _).
    destruct Hspoken as (_ & short & rest & Hsplit & Hlen & ->).
    by rewrite (app_whole "Done." short rest Hsplit Hlen).
  - destruct (summary_text_spec
                [ {| ev_messages := Some ([], ai (Blocks ["'a'"; "'b'"])) |} ])
      as (_ & Hspoken & _).
    destruct Hspoken as (_ & short & rest & Hsplit & Hlen & ->).
    by rewrite (app_whole "['a', 'b']" short rest Hsplit Hlen).
Defined.

(** C5: when recognition raises [UnknownValueError] or [RequestError] the
    iteration prints one message and the loop goes round again; the graph
    has not been invoked and recognition has been called once.  An
    exception of any other class leaves the loop. *)
Theorem recognizer_errors (events : list event) (speech : option string)
    (text class_name : string) :
  let round_of e :=
    {| heard := Raised e; streamed := events; speech_error := speech |} in
  iteration (round_of UnknownValueError)
  = (prelude
     ++ [Print "Sorry, I could not understand the audio. Please try again."],
     Again)
  ∧ iteration (round_of (RequestError text))
    = (prelude
       ++ [Print ("Could not request results from Google Speech Recognition service; "
                  +:+ text)],
       Again)
  ∧ iteration (round_of (OtherError class_name text))
    = (prelude, Escapes (OtherError class_name text))
  ∧ (∀ e, List.filter is_stream (iteration (round_of e)).1 = []
          ∧ List.filter is_recognize (iteration (round_of e)).1 = [Recognize]).
Proof.
  cbv zeta. repeat split; try reflexivity; by destruct e.
Qed.

Lemma steps_app (l1 l2 : list effect) : steps (l1 ++ l2) = steps l1 ++ steps l2.
Proof. apply List.filter_app. Qed.

Lemma stream_loop_no_steps (events : list event) (start : option content) :
  steps (stream_loop events start).1 = [].
Proof.
  revert start. induction events as [|ev rest IH]; intros start; [done|].
  simpl. destruct (observe start ev) as [shown seen] eqn:Eobs.
  specialize (IH seen).
  destruct (stream_loop rest seen) as [shown' result]. simpl in *.
  rewrite steps_app, IH.
  unfold observe in Eobs.
  destruct (ev_messages ev) as [[before msg]|]; by simplify_eq.
Qed.


Lemma iteration_survivable (r : round) :
  survivable r = true → (iteration r).2 = Again.
Proof.
  unfold survivable, iteration.
  destruct (heard r) as [sst|[| |]]; try done.
  by destruct (stream_loop _ _).
Qed.




End VoiceFacts.

(** * Further properties *)

(** ** The tools, for every behaviour of the operating system *)

Section MoreToolFacts.
Context {world exn : Type} `{!OS world exn}.
Import Tools.

Ltac tool_steps :=
  unfold try_except, call, read, update, mbind, M_bind, mret, M_ret.

(** X1: whatever the operating system does, [delete_folder] and
    [delete_file] let no exception escape: what they return is one of
    their own messages.  [run_project] lets exactly the exceptions of
    [thread.start()] escape, which it calls after its [try]; when it
    returns, it returns one of its two messages. *)
Theorem guarded_tools_return (w w' : world) (e : exn)
    (folder_name filename : string) (folder : option string) :
  (∃ message w1,
     delete_folder folder_name w = (Returned message, w1)
     ∧ (message = "Folder " +:+ folder_target folder_name +:+ " does not exist."
        ∨ message = "Folder " +:+ folder_target folder_name +:+ " has been deleted."
        ∨ ∃ e1, message = "Failed to delete folder: " +:+ str_exn e1))
  ∧ (∃ message w1,
       delete_file filename folder w = (Returned message, w1)
       ∧ (message = "File " +:+ file_target filename folder +:+ " does not exist."
          ∨ message = "File " +:+ file_target filename folder +:+ " has been deleted."
          ∨ ∃ e1, message = "Failed to delete file: " +:+ str_exn e1))
  ∧ (run_project w = (Raised e, w')
     ↔ ∃ w0 w1,
         os_makedirs CHAT_GPT_DIR w = (None, w0)
         ∧ os_chdir CHAT_GPT_DIR w0 = (None, w1)
         ∧ thread_start {| target := project_server; daemon := true |} w1
           = (Some e, w'))
  ∧ (∀ message w1,
       run_project w = (Returned message, w1) →
       message = started
       ∨ ∃ e1, message = "Failed to prepare project directory: " +:+ str_exn e1).
Proof.
  split; [|split; [|split]].
  - unfold delete_folder. tool_steps. fold (folder_target folder_name).
    destruct (os_path_exists _ w); simpl; [|eauto 6].
    destruct (shutil_rmtree _ w) as [[e1|] w1]; eauto 8.
  - unfold delete_file. tool_steps. fold (file_target filename folder).
    destruct (os_path_exists _ w); simpl; [|eauto 6].
    destruct (os_remove _ w) as [[e1|] w1]; eauto 8.
  - apply run_project_raises.
  - intros message w1. unfold run_project. tool_steps.
    destruct (os_makedirs CHAT_GPT_DIR w) as [[e0|] w0];
      [intros [= <- _]; eauto|].
    destruct (os_chdir CHAT_GPT_DIR w0) as [[e1|] w2];
      [intros [= <- _]; eauto|].
    destruct (thread_start _ w2) as [[e2|] w3]; [done|].
    intros [= <- _]. by left.
Qed.

(** X2: [create_folder] and [create_code_file] raise exactly when their
    first [os.makedirs], the one before [try], raises, with its exception
    and in the world it left; a failure of the call inside [try] comes back
    as a "Failed to ..." message. *)
Theorem create_tools_raise_iff (w w' : world) (e : exn)
    (folder_name filename content : string) (folder : option string) :
  (create_folder folder_name w = (Raised e, w')
   ↔ os_makedirs CHAT_GPT_DIR w = (Some e, w'))
  ∧ (create_code_file filename content folder w = (Raised e, w')
     ↔ os_makedirs (base_dir_of folder) w = (Some e, w'))
  ∧ (∀ w1, os_makedirs CHAT_GPT_DIR w = (None, w1) →
           os_makedirs (folder_target folder_name) w1 = (Some e, w') →
           create_folder folder_name w
           = (Returned ("Failed to create folder: " +:+ str_exn e), w'))
  ∧ (∀ w1, os_makedirs (base_dir_of folder) w = (None, w1) →
           open_write (file_target filename folder) content w1 = (Some e, w') →
           create_code_file filename content folder w
           = (Returned ("Failed to create/update file: " +:+ str_exn e), w')).
Proof.
  split; [apply create_folder_raises|].
  split; [apply create_code_file_raises|].
  split.
  - intros w1 H1 H2. unfold create_folder. tool_steps.
    fold (folder_target folder_name). by rewrite H1, H2.
  - intros w1 H1 H2. unfold create_code_file. tool_steps.
    fold (file_target filename folder). by rewrite H1, H2.
Qed.

End MoreToolFacts.

Lemma guarded_tools_return_witness :
  @Tools.run_project unit string Starved.os ()
  = (Raised "can't start new thread", ()).
Proof.
  apply (@guarded_tools_return unit string Starved.os () ()
           "can't start new thread" "" "" None).
  exists (), (). done.
Defined.

Lemma create_tools_raise_iff_witness :
  Tools.create_folder "site" FS.blocked
  = (Raised {| FS.err_no := FS.EEXIST; FS.err_filename := "chat_gpt" |},
     FS.blocked)
  ∧ Tools.create_code_file "pages/" "c" None FS.fresh
    = (Returned "Failed to create/update file: [Errno 21] Is a directory: 'chat_gpt/'",
       FS.fresh).
Proof.
  split.
  - apply (create_tools_raise_iff FS.blocked FS.blocked
             {| FS.err_no := FS.EEXIST; FS.err_filename := "chat_gpt" |}
             "site" "" "" None).
    vm_compute. reflexivity.
  - destruct (create_tools_raise_iff FS.fresh FS.fresh
                {| FS.err_no := FS.EISDIR; FS.err_filename := "chat_gpt/" |}
                "" "pages/" "c" None) as (_ & _ & _ & Hfile).
    apply (Hfile FS.fresh); vm_compute; reflexivity.
Defined.

(** ** The tools on the tree file system, continued *)

Section MoreTreeFacts.
Import Tools FS.

Ltac tool_steps :=
  unfold try_except, call, read, update, mbind, M_bind, mret, M_ret.

(** X3: every path that a tool builds is [chat_gpt] followed by one
    sanitised name, for the file tools with the sanitised folder name in
    between when one is given; no such name holds a separator, so a tool
    reaches at most two levels below the directory it starts from. *)
Theorem target_components (folder_name filename : string)
    (folder : option string) :
  let name := PosixPath.basename (Py.strip folder_name) in
  let file := PosixPath.basename filename in
  Py.contains PosixPath.sep name = false
  ∧ Py.contains PosixPath.sep file = false
  ∧ Py.split (folder_target folder_name) PosixPath.sep = ["chat_gpt"; name]
  ∧ (Py.split (file_target filename folder) PosixPath.sep = ["chat_gpt"; file]
     ∨ ∃ given,
         folder = Some given
         ∧ Py.split (file_target filename folder) PosixPath.sep
           = ["chat_gpt"; PosixPath.basename (Py.strip given); file]).
Proof.
  cbv zeta.
  split; [apply basename_no_sep|]. split; [apply basename_no_sep|].
  split.
  - rewrite folder_target_shape. apply split_project, basename_no_sep.
  - destruct (file_target_shape filename folder) as [->|(given & -> & ->)].
    + left. apply split_project, basename_no_sep.
    + right. exists given. split; [done|].
      apply split_project2; apply basename_no_sep.
Qed.

(** X4: unless a sanitised name is [..], the path that a tool acts on
    resolves to the project directory or to a place below it. *)
Theorem targets_inside_project (w : world) (folder_name filename : string)
    (folder : option string) (p q : list string) :
  PosixPath.basename (Py.strip folder_name) ≠ ".." →
  PosixPath.basename filename ≠ ".." →
  (∀ given, folder = Some given →
            PosixPath.basename (Py.strip given) ≠ "..") →
  resolve w (folder_target folder_name) = inr p →
  resolve w (file_target filename folder) = inr q →
  inside_project w p ∧ inside_project w q.
Proof.
  intros Hname Hfile Hfolder Hp Hq. split.
  - by apply (folder_target_inside w folder_name).
  - by apply (file_target_inside w filename folder).
Qed.

Lemma targets_inside_project_witness :
  inside_project fresh ["work"; "chat_gpt"; "site"]
  ∧ inside_project fresh ["work"; "chat_gpt"; "index.html"].
Proof.
  apply (targets_inside_project fresh "/etc/site" "../index.html" None);
    [by vm_compute..|done|vm_compute; reflexivity|vm_compute; reflexivity].
Defined.

Lemma lookup_node_mono (t t' : gmap (list string) node) (p : list string)
    (n : node) :
  t ⊆ t' → lookup_node t p = Some n → lookup_node t' p = Some n.
Proof.
  intros Hsub. destruct p as [|c p]; [done|]. simpl.
  intros Hp. by eapply lookup_weaken.
Qed.

Lemma lookup_node_insert_ne (t : gmap (list string) node) (p q : list string)
    (v : node) :
  p ≠ q → lookup_node (<[p := v]> t) q = lookup_node t q.
Proof. intros Hne. destruct q as [|c q]; [done|]. simpl. by rewrite lookup_insert_ne. Qed.

Lemma lookup_node_delete_ne (t : gmap (list string) node) (p q : list string) :
  p ≠ q → lookup_node (delete p t) q = lookup_node t q.
Proof. intros Hne. destruct q as [|c q]; [done|]. simpl. by rewrite lookup_delete_ne. Qed.

(** [os.makedirs] only adds directories. *)
Lemma makedirs_walk_mono (comps : list string) :
  ∀ t cur r t', makedirs_walk t cur comps = (r, t') → t ⊆ t'.
Proof.
  induction comps as [|c rest IH]; intros t cur r t'; simpl.
  - by intros [= _ <-].
  - destruct (lookup_node t cur) as [[|?]|]; [|by intros [= _ <-]..].
    destruct (lookup_node t (enter cur c)) as [[|?]|] eqn:Hnext.
    + apply IH.
    + destruct (forallb _ rest); by intros [= _ <-].
    + intros Hrec. apply IH in Hrec. etrans; [|exact Hrec].
      apply insert_subseteq.
      destruct (enter cur c); [done|exact Hnext].
Qed.

Lemma makedirs_walk_start (t t' : gmap (list string) node)
    (cur : list string) (c : string) (rest : list string) :
  makedirs_walk t cur (c :: rest) = (None, t') → lookup_node t cur = Some Dir.
Proof. simpl. by destruct (lookup_node t cur) as [[|?]|]. Qed.

(** After a successful [os.makedirs] the path resolves to a directory. *)
Lemma makedirs_walk_made (comps : list string) :
  ∀ t cur t',
    lookup_node t cur = Some Dir →
    makedirs_walk t cur comps = (None, t') →
    ∃ p, walk t' cur comps = inr p ∧ lookup_node t' p = Some Dir.
Proof.
  induction comps as [|c rest IH]; intros t cur t' Hcur; simpl.
  - intros [= <-]. eauto.
  - rewrite Hcur. intros Hrec.
    assert (Hsub : t ⊆ t').
    { apply (makedirs_walk_mono (c :: rest) t cur None t'). simpl.
      by rewrite Hcur. }
    rewrite (lookup_node_mono t t' cur Dir Hsub Hcur).
    destruct (lookup_node t (enter cur c)) as [[|?]|] eqn:Hnext.
    + by apply (IH t).
    + by destruct (forallb _ rest).
    + apply (IH (<[enter cur c := Dir]> t)); [|done].
      destruct (enter cur c); [done|]. simpl. apply lookup_insert_eq.
Qed.

(** A second [os.makedirs] of the same path finds everything in place. *)
Lemma makedirs_walk_again (comps : list string) :
  ∀ t cur t1 t2,
    makedirs_walk t cur comps = (None, t1) → t1 ⊆ t2 →
    makedirs_walk t2 cur comps = (None, t2).
Proof.
  induction comps as [|c rest IH]; intros t cur t1 t2; simpl; [done|].
  intros Hrec Hsub.
  assert (Hmono : t ⊆ t1).
  { by apply (makedirs_walk_mono (c :: rest) t cur None t1). }
  destruct (lookup_node t cur) as [[|?]|] eqn:Hcur; [|done..].
  rewrite (lookup_node_mono t t2 cur Dir); [|by etrans|done].
  destruct (lookup_node t (enter cur c)) as [[|?]|] eqn:Hnext.
  - rewrite (lookup_node_mono t t2 (enter cur c) Dir); [|by etrans|done].
    by apply (IH t _ t1).
  - by destruct (forallb _ rest).
  - assert (Hins : <[enter cur c := Dir]> t ⊆ t1).
    { by apply (makedirs_walk_mono rest _ (enter cur c) None t1). }
    rewrite (lookup_node_mono (<[enter cur c := Dir]> t) t2 (enter cur c) Dir).
    + by apply (IH (<[enter cur c := Dir]> t) _ t1).
    + by etrans.
    + destruct (enter cur c); [done|]. simpl. apply lookup_insert_eq.
Qed.

Lemma split_go_cons (c : ascii) (s cur : string) :
  ∃ x rest, Py.split_go c s cur = x :: rest.
Proof.
  revert cur. induction s as [|a s IH]; intros cur; simpl; [eauto|].
  destruct (Ascii.eqb a c); eauto.
Qed.

(** What a successful [os.makedirs] of a relative path has done. *)
Lemma makedirs_done (path : string) (w w' : world) :
  Py.startswith path PosixPath.sep = false →
  makedirs path w = (None, w') →
  cwd w' = cwd w ∧ threads w' = threads w ∧ tree w ⊆ tree w'
  ∧ exists_ path w' = true
  ∧ (∃ p, resolve w' path = inr p ∧ lookup_node (tree w') p = Some Dir)
  ∧ ∀ w2, cwd w2 = cwd w → tree w' ⊆ tree w2 →
          makedirs path w2 = (None, with_tree w2 (tree w2)).
Proof.
  intros Hrel. unfold makedirs, exists_, resolve, resolve_in, origin.
  rewrite Hrel. destruct (Py.truthy path); [|done].
  destruct (split_go_cons PosixPath.sep path "") as (c & rest & Hsplit).
  unfold Py.split. rewrite Hsplit.
  destruct (makedirs_walk (tree w) (cwd w) (c :: rest)) as [[e|] t] eqn:Hwalk;
    [done|].
  intros [= <-]. cbn [with_tree cwd tree threads].
  split; [done|]. split; [done|].
  split; [by apply (makedirs_walk_mono (c :: rest) _ (cwd w) None)|].
  destruct (makedirs_walk_made (c :: rest) (tree w) (cwd w) t) as (p & Hp & Hdir);
    [by eapply makedirs_walk_start|done|].
  rewrite Hp, Hdir. split; [done|]. split; [eauto|].
  intros w2 Hcwd Hsub. rewrite Hcwd.
  by rewrite (makedirs_walk_again (c :: rest) (tree w) (cwd w) t (tree w2)).
Qed.

Lemma walk_insert (t : gmap (list string) node) (p : list string) (v : node) :
  lookup_node t p ≠ Some Dir →
  ∀ comps cur q, walk t cur comps = inr q →
                 walk (<[p := v]> t) cur comps = inr q.
Proof.
  intros Hp. induction comps as [|c rest IH]; intros cur q; simpl; [done|].
  destruct (lookup_node t cur) as [[|?]|] eqn:Hcur; [|done..].
  rewrite lookup_node_insert_ne by (intros ->; by rewrite Hcur in Hp).
  rewrite Hcur. apply IH.
Qed.

Lemma walk_delete (t : gmap (list string) node) (p : list string) :
  lookup_node t p ≠ Some Dir →
  ∀ comps cur q, walk t cur comps = inr q →
                 walk (delete p t) cur comps = inr q.
Proof.
  intros Hp. induction comps as [|c rest IH]; intros cur q; simpl; [done|].
  destruct (lookup_node t cur) as [[|?]|] eqn:Hcur; [|done..].
  rewrite lookup_node_delete_ne by (intros ->; by rewrite Hcur in Hp).
  rewrite Hcur. apply IH.
Qed.

(** What the success message of [create_folder] tells. *)
Lemma create_folder_created (w w' : world) (folder_name : string) :
  create_folder folder_name w
  = (Returned ("Folder created at " +:+ folder_target folder_name), w') →
  ∃ w1, makedirs CHAT_GPT_DIR w = (None, w1)
        ∧ makedirs (folder_target folder_name) w1 = (None, w').
Proof.
  unfold create_folder. tool_steps. simpl. fold (folder_target folder_name).
  destruct (makedirs CHAT_GPT_DIR w) as [[e|] w1]; [done|].
  destruct (makedirs (folder_target folder_name) w1) as [[e|] w2] eqn:H2;
    intros Hsame; [by injection Hsame|].
  injection Hsame as ->. eauto.
Qed.

(** X5: when [create_folder] reports "Folder created at ...", its target
    exists afterwards and is a directory, nothing that was in the tree
    has been removed or replaced, and the working directory is where it
    was. *)
Theorem create_folder_makes_directory (w w' : world) (folder_name : string) :
  create_folder folder_name w
  = (Returned ("Folder created at " +:+ folder_target folder_name), w') →
  exists_ (folder_target folder_name) w' = true
  ∧ (∃ p, resolve w' (folder_target folder_name) = inr p
          ∧ lookup_node (tree w') p = Some Dir)
  ∧ tree w ⊆ tree w'
  ∧ cwd w' = cwd w.
Proof.
  intros (w1 & H1 & H2)%create_folder_created.
  destruct (targets_relative folder_name "" None) as [Hrel _].
  destruct (makedirs_done CHAT_GPT_DIR _ _ eq_refl H1) as (Hc1 & _ & Hs1 & _).
  destruct (makedirs_done _ _ _ Hrel H2) as (Hc2 & _ & Hs2 & Hex & Hdir & _).
  split; [done|]. split; [done|]. split; [by etrans|congruence].
Qed.

Lemma create_folder_makes_directory_witness :
  exists_ (folder_target " a/b/site ") (after (create_folder " a/b/site ") fresh)
  = true
  ∧ tree (after (create_folder " a/b/site ") fresh) !! ["work"; "chat_gpt"; "site"]
    = Some Dir.
Proof.
  destruct (create_folder_makes_directory fresh
              (after (create_folder " a/b/site ") fresh) " a/b/site ")
    as (Hex & _); [vm_compute; reflexivity|].
  split; [exact Hex | vm_compute; reflexivity].
Defined.

(** X6: creating a folder that [create_folder] has just created succeeds
    again, with the same message, and changes nothing. *)
Theorem create_folder_again (w w' : world) (folder_name : string) :
  create_folder folder_name w
  = (Returned ("Folder created at " +:+ folder_target folder_name), w') →
  create_folder folder_name w'
  = (Returned ("Folder created at " +:+ folder_target folder_name), w').
Proof.
  intros (w1 & H1 & H2)%create_folder_created.
  destruct (targets_relative folder_name "" None) as [Hrel _].
  destruct (makedirs_done CHAT_GPT_DIR _ _ eq_refl H1) as (Hc1 & _ & _ & _ & _ & Hagain1).
  destruct (makedirs_done _ _ _ Hrel H2) as (Hc2 & _ & Hs2 & _ & _ & Hagain2).
  unfold create_folder. tool_steps. simpl. fold (folder_target folder_name).
  rewrite (Hagain1 w') by (congruence || done).
  rewrite (Hagain2 (with_tree w' (tree w'))) by done.
  by destruct w'.
Qed.

Lemma create_folder_again_witness :
  create_folder "site" (after (create_folder "site") fresh)
  = (Returned "Folder created at chat_gpt/site",
     after (create_folder "site") fresh).
Proof.
  apply (create_folder_again fresh). vm_compute. reflexivity.
Defined.

(** What the success message of [create_code_file] tells. *)
Lemma create_code_file_created (w w' : world) (filename content : string)
    (folder : option string) :
  create_code_file filename content folder w
  = (Returned ("File created/updated at " +:+ file_target filename folder), w') →
  ∃ w1, makedirs (base_dir_of folder) w = (None, w1)
        ∧ write_file (file_target filename folder) content w1 = (None, w').
Proof.
  unfold create_code_file. tool_steps. simpl.
  fold (file_target filename folder).
  destruct (makedirs (base_dir_of folder) w) as [[e|] w1]; [done|].
  destruct (write_file (file_target filename folder) content w1)
    as [[e|] w2] eqn:H2; intros Hsame; [by injection Hsame|].
  injection Hsame as ->. eauto.
Qed.

(** X7: when [create_code_file] reports "File created/updated at ...", its
    target resolves to a regular file that holds exactly the content given,
    whatever was there before, and every other entry of the tree is kept. *)
Theorem create_code_file_writes (w w' : world) (filename content : string)
    (folder : option string) :
  create_code_file filename content folder w
  = (Returned ("File created/updated at " +:+ file_target filename folder), w') →
  ∃ p, resolve w' (file_target filename folder) = inr p
       ∧ tree w' !! p = Some (File content)
       ∧ exists_ (file_target filename folder) w' = true
       ∧ ∀ q v, q ≠ p → tree w !! q = Some v → tree w' !! q = Some v.
Proof.
  intros (w1 & H1 & H2)%create_code_file_created.
  destruct (makedirs_done _ _ _ (base_dir_relative folder) H1)
    as (_ & _ & Hsub & _).
  unfold write_file in H2.
  destruct (resolve w1 (file_target filename folder)) as [e|p] eqn:Hp; [done|].
  assert (Hnot : lookup_node (tree w1) p ≠ Some Dir).
  { intros Hdir. by rewrite Hdir in H2. }
  assert (Hne : p ≠ []) by (intros ->; by apply Hnot).
  assert (w' = with_tree w1 (<[p := File content]> (tree w1))) as ->.
  { destruct (lookup_node (tree w1) p) as [[|?]|]; by simplify_eq. }
  clear H2. exists p.
  assert (Hres : resolve (with_tree w1 (<[p := File content]> (tree w1)))
                   (file_target filename folder) = inr p).
  { unfold resolve, resolve_in in *. cbn [with_tree cwd tree threads].
    change (origin (with_tree w1 _) (file_target filename folder))
      with (origin w1 (file_target filename folder)).
    destruct (Py.truthy (file_target filename folder)); [|done].
    by apply walk_insert. }
  assert (Hfile : <[p := File content]> (tree w1) !! p = Some (File content))
    by apply lookup_insert_eq.
  split; [done|]. split; [done|]. split.
  - unfold exists_. rewrite Hres. cbn [with_tree tree].
    destruct p; [done|]. simpl. by rewrite Hfile.
  - intros q v Hq Hv. cbn [with_tree tree]. rewrite lookup_insert_ne by done.
    by eapply lookup_weaken.
Qed.

Lemma create_code_file_writes_witness :
  ∃ p, resolve (after (create_code_file "index.html" "new" (Some "site"))
                  (after (create_code_file "index.html" "old" (Some "site")) fresh))
         "chat_gpt/site/index.html" = inr p
       ∧ tree (after (create_code_file "index.html" "new" (Some "site"))
                 (after (create_code_file "index.html" "old" (Some "site")) fresh))
           !! p = Some (File "new").
Proof.
  destruct (create_code_file_writes
              (after (create_code_file "index.html" "old" (Some "site")) fresh)
              (after (create_code_file "index.html" "new" (Some "site"))
                 (after (create_code_file "index.html" "old" (Some "site")) fresh))
              "index.html" "new" (Some "site"))
    as (p & Hp & Hfile & _); [vm_compute; reflexivity|].
  exists p. split; [exact Hp | exact Hfile].
Defined.

Lemma target_components_last (folder_name : string) :
  List.last (Py.split (folder_target folder_name) PosixPath.sep) ""
  = PosixPath.basename (Py.strip folder_name)
  ∧ Py.truthy (folder_target folder_name) = true.
Proof.
  rewrite folder_target_shape.
  rewrite split_project by apply basename_no_sep. done.
Qed.

(** X8: when its target resolves to a regular file, [delete_file] reports
    "File ... has been deleted.", takes exactly that entry out of the tree
    and leaves a target that no longer exists. *)
Theorem delete_file_removes_file (w : world) (filename content : string)
    (folder : option string) (p : list string) :
  resolve w (file_target filename folder) = inr p →
  lookup_node (tree w) p = Some (File content) →
  delete_file filename folder w
  = (Returned ("File " +:+ file_target filename folder +:+ " has been deleted."),
     with_tree w (delete p (tree w)))
  ∧ exists_ (file_target filename folder) (with_tree w (delete p (tree w)))
    = false.
Proof.
  intros Hp Hfile.
  assert (Hne : p ≠ []) by (by intros ->).
  split.
  - unfold delete_file. tool_steps. simpl.
    fold (file_target filename folder).
    unfold exists_, remove. rewrite Hp, Hfile.
    rewrite bool_decide_eq_true_2 by eauto. cbn [negb]. cbv beta.
    by rewrite Hp, Hfile.
  - unfold exists_, resolve, resolve_in in *. cbn [with_tree cwd tree threads].
    change (origin (with_tree w _) (file_target filename folder))
      with (origin w (file_target filename folder)).
    destruct (Py.truthy (file_target filename folder)); [|done].
    rewrite (walk_delete (tree w) p) with (q := p);
      [|by rewrite Hfile|done].
    destruct p; [done|]. simpl. by rewrite lookup_delete_eq.
Qed.

Lemma delete_file_removes_file_witness :
  delete_file "x.txt" None (after (create_code_file "x.txt" "c" None) fresh)
  = (Returned "File chat_gpt/x.txt has been deleted.", fresh).
Proof.
  destruct (delete_file_removes_file
              (after (create_code_file "x.txt" "c" None) fresh) "x.txt" "c"
              None ["work"; "chat_gpt"; "x.txt"]) as [Hdone _];
    [vm_compute; reflexivity..|].
  rewrite Hdone. vm_compute. reflexivity.
Defined.

(** X9: when its target resolves to a directory and the sanitised name is
    neither [.] nor [..], [delete_folder] reports "Folder ... has been
    deleted." and removes that directory with everything below it and
    nothing else; what it removes lies inside the project. *)
Theorem delete_folder_removes_subtree (w : world) (folder_name : string)
    (p : list string) :
  PosixPath.basename (Py.strip folder_name) ≠ "." →
  PosixPath.basename (Py.strip folder_name) ≠ ".." →
  resolve w (folder_target folder_name) = inr p →
  lookup_node (tree w) p = Some Dir →
  ∃ w',
    delete_folder folder_name w
    = (Returned ("Folder " +:+ folder_target folder_name +:+ " has been deleted."),
       w')
    ∧ cwd w' = cwd w ∧ threads w' = threads w
    ∧ inside_project w p
    ∧ ∀ q, tree w' !! q
           = if decide (p `prefix_of` q) then None else tree w !! q.
Proof.
  intros Hdot Hdots Hp Hdir.
  exists (with_tree w (delete p (without_below p (tree w)))).
  split; [|split; [done|split; [done|split]]].
  - unfold delete_folder. tool_steps. simpl.
    fold (folder_target folder_name).
    unfold exists_, rmtree. rewrite Hp, Hdir.
    rewrite bool_decide_eq_true_2 by eauto. cbn [negb]. cbv beta.
    rewrite Hp, Hdir.
    destruct (target_components_last folder_name) as [-> _].
    by rewrite !bool_decide_eq_false_2.
  - by apply (folder_target_inside w folder_name).
  - intros q. cbn [with_tree tree]. unfold without_below.
    destruct (decide (p `prefix_of` q)) as [Hpre|Hpre].
    + destruct (decide (q = p)) as [->|Hne]; [apply lookup_delete_eq|].
      rewrite lookup_delete_ne by done.
      apply map_lookup_filter_None. right. intros v _ Hkeep.
      apply Hkeep. done.
    + rewrite lookup_delete_ne by (intros ->; by apply Hpre).
      apply option_eq. intros v. rewrite map_lookup_filter_Some.
      split; [by intros [? _]|]. intros Hv. split; [done|].
      simpl. by intros [? _].
Qed.

Lemma delete_folder_removes_subtree_witness :
  ∃ w',
    delete_folder "site"
      (after (create_code_file "index.html" "c" (Some "site")) with_notes)
    = (Returned "Folder chat_gpt/site has been deleted.", w')
    ∧ tree w' !! ["work"; "chat_gpt"; "site"; "index.html"] = None
    ∧ tree w' !! ["work"; "notes.txt"] = Some (File "keep").
Proof.
  destruct (delete_folder_removes_subtree
              (after (create_code_file "index.html" "c" (Some "site")) with_notes)
              "site" ["work"; "chat_gpt"; "site"])
    as (w' & Hdone & _ & _ & _ & Htree);
    [by vm_compute..|vm_compute; reflexivity|vm_compute; reflexivity|].
  exists w'. split; [exact Hdone|].
  split; rewrite Htree; vm_compute; reflexivity.
Defined.

Lemma makedirs_frame (path : string) (w : world) :
  cwd (makedirs path w).2 = cwd w
  ∧ threads (makedirs path w).2 = threads w
  ∧ tree w ⊆ tree (makedirs path w).2.
Proof.
  unfold makedirs. destruct (Py.truthy path); [|done].
  destruct (makedirs_walk _ _ _) as [[e|] t] eqn:Hwalk;
    (split; [done|split; [done|]]); by eapply makedirs_walk_mono.
Qed.

(** X10: when [run_project] does not report that the server has started,
    it reports "Failed to prepare project directory: ..." with the
    exception's text; it has then started no thread, the working directory
    is where it was, and nothing has been removed from the tree. *)
Theorem run_project_failure (w w' : world) (message : string) :
  run_project w = (Returned message, w') →
  message ≠ started →
  (∃ e, message = "Failed to prepare project directory: " +:+ str_os_error e)
  ∧ threads w' = threads w
  ∧ cwd w' = cwd w
  ∧ tree w ⊆ tree w'.
Proof.
  unfold run_project. tool_steps. simpl.
  destruct (makedirs_frame CHAT_GPT_DIR w) as (Hcwd & Hthreads & Hsub).
  destruct (makedirs CHAT_GPT_DIR w) as [[e|] w1]; simpl in *.
  { intros [= <- <-] _. eauto. }
  unfold chdir.
  destruct (resolve w1 CHAT_GPT_DIR) as [e|p]; simpl.
  { intros [= <- <-] _. eauto. }
  destruct (lookup_node (tree w1) p) as [[|?]|]; simpl;
    intros [= <- <-] Hne; [done|eauto..].
Qed.

Lemma run_project_failure_witness :
  run_project blocked
  = (Returned "Failed to prepare project directory: [Errno 17] File exists: 'chat_gpt'",
     blocked)
  ∧ threads (after run_project blocked) = [].
Proof.
  split; [vm_compute; reflexivity|].
  destruct (run_project_failure blocked (after run_project blocked)
              "Failed to prepare project directory: [Errno 17] File exists: 'chat_gpt'")
    as (_ & Hthreads & _); [vm_compute; reflexivity|by vm_compute|].
  exact Hthreads.
Defined.

(** X11: every successful [run_project] goes one level further down and
    starts one more thread for a server at the same address: after two of
    them the process is in [chat_gpt/chat_gpt] and two such threads have
    been started. *)
Theorem run_project_twice (w w1 w2 : world) :
  run_project w = (Returned started, w1) →
  run_project w1 = (Returned started, w2) →
  cwd w2 = cwd w ++ ["chat_gpt"; "chat_gpt"]
  ∧ threads w2
    = threads w ++ [ {| target := project_server; daemon := true |};
                     {| target := project_server; daemon := true |} ].
Proof.
  intros [t1 ->]%run_project_started [t2 ->]%run_project_started.
  unfold project_dir. simpl. by rewrite <- !app_assoc.
Qed.

Lemma run_project_twice_witness :
  cwd (after run_project (after run_project fresh))
  = ["work"; "chat_gpt"; "chat_gpt"]
  ∧ length (threads (after run_project (after run_project fresh))) = 2.
Proof.
  destruct (run_project_twice fresh (after run_project fresh)
              (after run_project (after run_project fresh)))
    as [Hcwd Hthreads]; [vm_compute; reflexivity..|].
  split; [exact Hcwd|]. by rewrite Hthreads.
Defined.

End MoreTreeFacts.

(** ** The conversation graph, continued *)

Section MoreGraphFacts.
Import Graph.

Variable helper_llm : string → message.
Variable llm_with_tool : list message → message.
Variable run_tool : tool_call → message.
Variable rewrite_template : string → string.
Variable plan_template : string → string → string.
Variable system_template : string → string → string → string.

Local Abbreviation rewrite_node := (rewrite_node helper_llm rewrite_template).
Local Abbreviation plan_node := (plan_node helper_llm plan_template).
Local Abbreviation chatbot := (chatbot llm_with_tool system_template).
Local Abbreviation tool_node := (tool_node run_tool).
Local Abbreviation run_node :=
  (run_node helper_llm llm_with_tool run_tool rewrite_template plan_template
     system_template).
Local Abbreviation run :=
  (run helper_llm llm_with_tool run_tool rewrite_template plan_template
     system_template).
Local Abbreviation invoke :=
  (invoke helper_llm llm_with_tool run_tool rewrite_template plan_template
     system_template).
Local Abbreviation chat_state :=
  (chat_state helper_llm llm_with_tool run_tool rewrite_template
     plan_template system_template).
Local Abbreviation reply_calls := (reply_calls llm_with_tool system_template).
Local Abbreviation follows_order :=
  (follows_order helper_llm llm_with_tool run_tool rewrite_template
     plan_template system_template).

Lemma run_node_grows (r : runnable) (st : State) :
  messages st `prefix_of` messages (run_node r st).
Proof.
  destruct r; simpl.
  - unfold Graph.rewrite_node. by destruct (last_user st).
  - done.
  - by apply prefix_app_r.
  - by apply prefix_app_r.
Qed.

Lemma run_grows (g : StateGraph) (fuel : nat) :
  ∀ n st, messages st `prefix_of` messages (run g fuel n st).1.2.
Proof.
  induction fuel as [|fuel IH]; intros n st; [done|].
  rewrite (run_S helper_llm llm_with_tool run_tool rewrite_template
             plan_template system_template).
  destruct (nodes g !! n) as [r|]; [|done]. cbv zeta.
  pose proof (run_node_grows r st) as Hnode.
  destruct (triggered g n (run_node r st)) as [next|]; [|done].
  specialize (IH).
  destruct fuel as [|fuel]; [done|].
  destruct next as [|m [|m' l]]; try done.
  specialize (IH m (run_node r st)).
  destruct (run g (S fuel) m (run_node r st)) as [[ran st'] s].
  cbn [fst snd] in *. by etrans.
Qed.

(** X12: a run never drops or rewrites what is already in the message
    list: for every graph, every bound on the steps and every behaviour of
    the models and tools, the messages it starts with are a prefix of the
    messages it ends with. *)
Theorem run_keeps_history (g : StateGraph) (fuel : nat) (input : State) :
  messages input `prefix_of` messages (invoke g fuel input).1.2.
Proof.
  unfold Graph.invoke.
  destruct (static_targets g START) as [|n [|n' l]]; [done| |done].
  apply run_grows.
Qed.

Lemma chat_state_grows (input : State) (k : nat) :
  messages input `prefix_of` messages (chat_state input k).
Proof.
  induction k as [|k IH]; simpl.
  - unfold Graph.rewrite_node. by destruct (last_user input).
  - etrans; [exact IH|]. etrans; apply prefix_app_r; done.
Qed.

(** X13: a run of the conversation graph that finishes ends on a reply of
    the tool-enabled model that carries no tool call; that reply is the
    model's answer to a system message followed by everything before it,
    and the messages of the input come first. *)
Theorem finished_run_ends_on_reply (input st : State) (fuel : nat)
    (ran : list string) :
  invoke graph_builder fuel input = (ran, st, Finished) →
  ∃ earlier system_prompt,
    messages st = earlier ++ [llm_with_tool (system_prompt :: earlier)]
    ∧ msg_tool_calls (llm_with_tool (system_prompt :: earlier)) = []
    ∧ msg_type system_prompt = "system"
    ∧ messages input `prefix_of` earlier.
Proof.
  intros Hrun.
  destruct (invoke_follows_order helper_llm llm_with_tool run_tool
              rewrite_template plan_template system_template input fuel)
    as [k Hk].
  rewrite Hrun in Hk. unfold Graph.follows_order in Hk. cbn [fst snd] in Hk.
  destruct Hk as [(_ & _ & -> & Hstop & _)|[? _]]; [|done].
  unfold Graph.reply_calls, Graph.chatbot in *. cbn [messages] in *.
  rewrite list.last_snoc in Hstop. cbn [from_option] in Hstop.
  eexists _, _. split; [reflexivity|].
  split; [exact Hstop|]. split; [done|].
  apply chat_state_grows.
Qed.

End MoreGraphFacts.

Lemma finished_run_ends_on_reply_witness :
  ∃ earlier system_prompt,
    Graph.messages
      (Graph.invoke Graph.demo_helper Graph.demo_llm Graph.demo_tool
         (λ s, s) (λ s _, s) (λ s _ _, s) Graph.graph_builder 9
         Graph.demo_input).1.2
    = earlier ++ [Graph.demo_llm (system_prompt :: earlier)]
    ∧ Graph.msg_tool_calls (Graph.demo_llm (system_prompt :: earlier)) = [].
Proof.
  destruct (finished_run_ends_on_reply Graph.demo_helper Graph.demo_llm
              Graph.demo_tool (λ s, s) (λ s _, s) (λ s _ _, s)
              Graph.demo_input
              (Graph.invoke Graph.demo_helper Graph.demo_llm Graph.demo_tool
                 (λ s, s) (λ s _, s) (λ s _ _, s) Graph.graph_builder 9
                 Graph.demo_input).1.2
              9 ["rewrite"; "plan"; "chatbot"; "tools"; "chatbot"])
    as (earlier & system_prompt & Hm & Hc & _); [vm_compute; reflexivity|].
  exists earlier, system_prompt. split; [exact Hm | exact Hc].
Defined.

Section UserMessageFacts.
Import Graph.

Variable helper_llm : string → message.
Variable rewrite_template : string → string.
Variable plan_template : string → string → string.

Lemma find_app {A} (f : A → bool) (l1 l2 : list A) :
  find f (l1 ++ l2)
  = match find f l1 with
    | Some x => Some x
    | None => find f l2
    end.
Proof. induction l1 as [|x l1 IH]; simpl; [done|]. by destruct (f x). Qed.

Lemma find_none_iff {A} (f : A → bool) (l : list A) :
  find f l = None ↔ forallb (λ x, negb (f x)) l = true.
Proof.
  induction l as [|x l IH]; simpl; [done|].
  destruct (f x); simpl; [split; done|exact IH].
Qed.

Lemma forallb_rev {A} (f : A → bool) (l : list A) :
  forallb f (rev l) = forallb f l.
Proof.
  induction l as [|x l IH]; simpl; [done|].
  rewrite forallb_app, IH. simpl. rewrite andb_true_r. apply andb_comm.
Qed.

(** X14: the nodes read the request from the most recent user message:
    whatever precedes it, and whatever the assistant and the tools have
    added after it, [last_user] finds that message; it finds none exactly
    when the list holds no user message. *)
Theorem last_user_is_latest (st : State) (earlier later : list message)
    (m : message) :
  (messages st = earlier ++ m :: later →
   is_user m = true →
   forallb (λ x, negb (is_user x)) later = true →
   last_user st = Some m)
  ∧ (last_user st = None
     ↔ forallb (λ x, negb (is_user x)) (messages st) = true).
Proof.
  unfold last_user. split.
  - intros -> Hm Hlater.
    rewrite rev_app_distr. simpl. rewrite <- app_assoc, find_app.
    replace (find is_user (rev later)) with (@None message).
    + simpl. by rewrite Hm.
    + symmetry. apply find_none_iff. by rewrite forallb_rev.
  - by rewrite find_none_iff, forallb_rev.
Qed.

Lemma last_user_is_latest_witness :
  last_user
    {| messages := [ Voice.human "make a site"; Voice.ai (Text "Done.");
                     Voice.human "now delete it"; Voice.ai (Text "") ];
       rewritten_prompt := None; plan := None |}
  = Some (Voice.human "now delete it").
Proof.
  apply (proj1 (last_user_is_latest _
                  [Voice.human "make a site"; Voice.ai (Text "Done.")]
                  [Voice.ai (Text "")] (Voice.human "now delete it")));
    reflexivity.
Defined.

(** X15: the planner is given the user's request and, as the rewritten
    instruction, the text that the rewriting model returned; when that
    model returns nothing the request itself takes its place. *)
Theorem plan_after_rewrite (st : State) (user_msg : message) :
  last_user st = Some user_msg →
  let request := content_str (or_empty (msg_content user_msg)) in
  let rewritten := msg_content (helper_llm (rewrite_template request)) in
  plan (plan_node helper_llm plan_template
          (rewrite_node helper_llm rewrite_template st))
  = Some (or_empty
            (msg_content
               (helper_llm
                  (plan_template request
                     (if content_truthy rewritten then content_str rewritten
                      else request))))).
Proof.
  intros Huser. cbv zeta.
  unfold plan_node, rewrite_node, user_text_of. rewrite Huser. simpl.
  unfold last_user in *. simpl. rewrite Huser.
  set (c := msg_content (helper_llm (rewrite_template _))).
  unfold or_empty.
  destruct (content_truthy c) eqn:Htruthy; cbv iota; [by rewrite Htruthy|done].
Qed.

End UserMessageFacts.

Lemma plan_after_rewrite_witness :
  Graph.plan
    (Graph.plan_node (λ _, Voice.ai (Graph.Text "")) (λ u r, u +:+ " / " +:+ r)
       (Graph.rewrite_node (λ _, Voice.ai (Graph.Text "")) (λ s, s)
          Graph.demo_input))
  = Some (Graph.Text "").
Proof.
  rewrite (plan_after_rewrite (λ _, Voice.ai (Graph.Text "")) (λ s, s)
             (λ u r, u +:+ " / " +:+ r) Graph.demo_input
             (Voice.human "make a folder called site") eq_refl).
  reflexivity.
Defined.

(** ** The voice loop, continued *)

Section MoreVoiceFacts.
Import Graph Voice.

(** X16: an exception of recognition that the loop does not catch ends
    [main]: the rounds before it have run in full, the failing round stops
    right after the recognition call, and no later round is listened to. *)
Theorem uncaught_error_ends_main (before later : list round) (r : round)
    (class_name text : string) :
  forallb survivable before = true →
  heard r = Raised (OtherError class_name text) →
  main (before ++ r :: later)
  = (concat ((λ r, (iteration r).1) <$> before) ++ prelude,
     Left (OtherError class_name text)).
Proof.
  intros Hbefore Hr. induction before as [|b before IH]; simpl.
  - unfold iteration. by rewrite Hr.
  - simpl in Hbefore. apply andb_true_iff in Hbefore as [Hb Hbefore].
    pose proof (iteration_survivable b Hb) as Hagain.
    destruct (iteration b) as [done flow]. simpl in Hagain. subst flow.
    rewrite (IH Hbefore). by rewrite <- app_assoc.
Qed.

Lemma uncaught_error_ends_main_witness :
  main [unheard;
        {| heard := Raised (OtherError "WaitTimeoutError" "timed out");
           streamed := []; speech_error := None |};
        answered]
  = ((iteration unheard).1 ++ [] ++ prelude,
     Left (OtherError "WaitTimeoutError" "timed out")).
Proof.
  apply (uncaught_error_ends_main [unheard] [answered]); reflexivity.
Defined.

(** X17: a failure of speech synthesis does not stop the loop: the
    iteration has spoken, prints "Error during speech synthesis: ..." as
    its last effect and goes round again. *)
Theorem speech_failure_is_reported (r : round) (sst e : string) :
  heard r = Returned sst →
  speech_error r = Some e →
  (iteration r).2 = Again
  ∧ ∃ shown,
      steps shown = []
      ∧ (iteration r).1
        = prelude ++ [Print ("You Said: " +:+ sst); Stream sst] ++ shown
          ++ [Speak (summary_text (stream_loop (streamed r) None).2);
              Print ("Error during speech synthesis: " +:+ e)].
Proof.
  intros Hheard Hspeech. unfold iteration. rewrite Hheard, Hspeech.
  pose proof (stream_loop_no_steps (streamed r) None) as Hshown.
  destruct (stream_loop (streamed r) None) as [shown last_ai_text].
  simpl in *. split; [done|]. by exists shown.
Qed.

Lemma speech_failure_is_reported_witness :
  (iteration {| heard := Returned "hello"; streamed := [];
                speech_error := Some "quota exceeded" |}).2
  = Again.
Proof.
  apply (proj1 (speech_failure_is_reported
                  {| heard := Returned "hello"; streamed := [];
                     speech_error := Some "quota exceeded" |}
                  "hello" "quota exceeded" eq_refl eq_refl)).
Defined.

Lemma last_ai_snoc (events : list event) (ev : event) :
  last_ai (events ++ [ev])
  = match spoken_ai ev with
    | Some c => Some c
    | None => last_ai events
    end.
Proof.
  induction events as [|e events IH]; simpl.
  - by destruct (spoken_ai ev).
  - rewrite IH. by destruct (spoken_ai ev).
Qed.

(** X18: what is spoken follows the latest streamed value whose last
    message is an AI message with a non-empty content: such a value
    replaces whatever was collected before it; any other value, an AI
    message that only carries tool calls among them, leaves the text
    collected so far in place. *)
Theorem summary_follows_latest_text (events : list event) (ev : event) :
  summary_text (stream_loop (events ++ [ev]) None).2
  = match spoken_ai ev with
    | Some c => "Here is my response: " +:+ Py.slice_to 400 (content_str c)
    | None => summary_text (stream_loop events None).2
    end.
Proof.
  rewrite !stream_loop_last, last_ai_snoc.
  destruct (spoken_ai ev) as [c|] eqn:Hev; [|done].
  unfold summary_text. by rewrite (spoken_ai_truthy ev c Hev).
Qed.

Lemma slice_to_all (n : nat) (s : string) :
  String.length s ≤ n → Py.slice_to n s = s.
Proof.
  revert s. induction n as [|n IH]; intros [|a s]; simpl; try done; [lia|].
  intros Hlen. f_equal. apply IH. lia.
Qed.

(** X19: a reply of at most 400 characters is spoken whole after the
    prefix; a longer one is cut, and the text handed to speech synthesis
    then has exactly 421 characters. *)
Theorem summary_truncation (events : list event) (c : content) :
  last_ai events = Some c →
  (String.length (content_str c) ≤ 400 →
   summary_text (stream_loop events None).2
   = "Here is my response: " +:+ content_str c)
  ∧ (400 < String.length (content_str c) →
     String.length (summary_text (stream_loop events None).2) = 421).
Proof.
  intros Hlast. rewrite stream_loop_last, Hlast.
  unfold summary_text. rewrite (last_ai_truthy events c Hlast).
  split; intros Hlen.
  - by rewrite slice_to_all.
  - rewrite str_length_app, slice_to_length. simpl String.length. lia.
Qed.

Lemma summary_truncation_witness :
  summary_text (stream_loop (streamed answered) None).2
  = "Here is my response: Done.".
Proof.
  destruct (summary_truncation (streamed answered) (Text "Done.") eq_refl)
    as [Hshort _].
  apply Hshort. simpl. lia.
Defined.

End MoreVoiceFacts.

(** ** Sanitised names and the paths built from them *)

Section NameFacts.
Import Py PosixPath Tools.

Lemma rfind_go_absent (c : ascii) (s : string) (i last : Z) :
  contains c s = false → rfind_go c s i last = last.
Proof.
  revert i last. induction s as [|a s IH]; intros i last; simpl; [done|].
  intros [-> Hs]%orb_false_iff. by apply IH.
Qed.

Lemma rfind_go_app (c : ascii) (a b : string) (i last : Z) :
  contains c b = false →
  rfind_go c (a +:+ String c b) i last = (i + Z.of_nat (String.length a))%Z.
Proof.
  intros Hb. revert i last. induction a as [|x a IH]; intros i last.
  - simpl. rewrite Ascii.eqb_refl, rfind_go_absent by done. lia.
  - rewrite str_app_cons. simpl rfind_go. rewrite IH.
    simpl String.length. lia.
Qed.

Lemma drop_app (a b : string) : drop (String.length a) (a +:+ b) = b.
Proof. induction a as [|x a IH]; [done|]. rewrite str_app_cons. exact IH. Qed.

Lemma basename_app (a b : string) :
  contains sep b = false → basename (a +:+ String sep b) = b.
Proof.
  intros Hb. unfold basename, rfind, slice_from.
  rewrite rfind_go_app by done.
  replace (Z.to_nat (0 + Z.of_nat (String.length a) + 1))
    with (String.length (a +:+ String sep "")).
  - replace (a +:+ String sep b) with ((a +:+ String sep "") +:+ b)
      by (by rewrite str_app_assoc).
    apply drop_app.
  - rewrite str_length_app. simpl. lia.
Qed.

Lemma basename_plain (b : string) : contains sep b = false → basename b = b.
Proof.
  intros Hb. unfold basename, rfind, slice_from.
  by rewrite rfind_go_absent.
Qed.

Lemma endswith_split (a : string) (c : ascii) :
  endswith a c = true → ∃ a', a = a' +:+ String c "".
Proof.
  induction a as [|x a IH]; [done|]. simpl.
  destruct a as [|y a].
  - intros ->%Ascii.eqb_eq. by exists "".
  - intros [a' ->]%IH. by exists (String x a').
Qed.

(** X20: [basename] undoes [join] for a name without a separator, and a
    sanitised name is its own base name; so the last component of the path
    that a tool reports is the sanitised name it was built from, and
    sanitising it again changes nothing. *)
Theorem basename_of_target (a b folder_name filename : string)
    (folder : option string) :
  (contains sep b = false → basename (join a b) = b)
  ∧ basename (basename b) = basename b
  ∧ basename (folder_target folder_name) = basename (strip folder_name)
  ∧ basename (file_target filename folder) = basename filename.
Proof.
  assert (Hjoin : ∀ a b, contains sep b = false → basename (join a b) = b).
  { clear. intros a b Hb. unfold join, join_step.
    rewrite (no_sep_startswith b Hb).
    destruct a as [|x a]; [by apply basename_plain|].
    change (negb (truthy (String x a))) with false. cbn [orb].
    destruct (endswith (String x a) sep) eqn:Hend.
    - apply endswith_split in Hend as [a' Ha]. rewrite Ha.
      rewrite str_app_assoc. by apply basename_app.
    - by apply basename_app. }
  split; [apply Hjoin|].
  split; [apply basename_plain, basename_no_sep|].
  split; apply Hjoin, basename_no_sep.
Qed.

Lemma basename_of_target_witness :
  basename (join "chat_gpt/site/" "index.html") = "index.html".
Proof.
  apply (proj1 (basename_of_target "chat_gpt/site/" "index.html" "" "" None)).
  reflexivity.
Defined.

End NameFacts.
